(** * mt5_EA backend: group / membership / settlement lifecycle and the
      real-time notification hub

    A shallow embedding of

      - [backend/services/realtime_service.py]   (module [Realtime])
      - [backend/utils/mongo.py] and the Motor collection calls used by the
        API handlers                               (module [Mongo])
      - [backend/services/group_service.py],
        [backend/services/member_service.py],
        [backend/services/settlement_service.py],
        [backend/api/groups.py]                    (module [Backend])

    Python objects with identity (the [asyncio.Queue] of a connection) are
    handles into an explicit heap; MongoDB collections are lists of typed
    documents in insertion order; [datetime.now()] readings, generated ids
    and the answers of the external trade copier are explicit arguments, and
    so are the two builtins of the interpreter, [str.isdigit] and [len],
    that the account check calls.  The id string that [get_current_user]
    reads from the token is an argument of each handler. *)

From Stdlib Require Import ZArith List Ascii String Floats.PrimFloat.
From stdpp Require Import gmap strings list fin_maps.

Open Scope string_scope.
Open Scope list_scope.

(* ===================================================================== *)
(** ** services/realtime_service.py                                       *)
(* ===================================================================== *)

Module Realtime.

(** The serialised event [json.dumps({"event":..,"data":..,"timestamp":..})]
    put on a queue.  [data] is the flat dictionary of strings and ISO
    dates every caller in the repository passes, so [json.dumps] does not
    raise. *)
Inductive value :=
| Str (s : string)
| Isoformat (t : Z).       (* [t.isoformat()], kept as the datetime it prints *)

Record message := Message {
  event : string;
  data : list (string * value);
  timestamp : Z
}.

(** An [asyncio.Queue()] as [sse_endpoint] creates it: no [maxsize], hence
    unbounded; its state is the FIFO list of queued items, oldest first. *)
Definition queue := list message.

(** The Python heap of queue objects, by object identity.  A handle that
    has not been written yet denotes a queue that is still empty. *)
Abbreviation heap := (gmap positive queue).

Definition qitems (h : heap) (q : positive) : queue := default [] (h !! q).

(** [await queue.put(item)] on an unbounded queue: append, never suspend,
    never raise. *)
Definition put (item : message) (q : positive) (h : heap) : heap :=
  <[q := qitems h q ++ [item]]> h.

(** [class RealtimeService]: three dictionaries from user id to the set of
    queues of that user's open connections. *)
Record RealtimeService := {
  admin_connections : gmap string (gset positive);
  user_connections : gmap string (gset positive);
  master_connections : gmap string (gset positive)
}.

(** [RealtimeService.__init__] *)
Definition init : RealtimeService :=
  {| admin_connections := ∅; user_connections := ∅; master_connections := ∅ |}.

(** The body shared by the three branches of [add_connection]:
    [if user_id not in d: d[user_id] = set()] then [d[user_id].add(queue)]. *)
Definition dict_add (user_id : string) (q : positive)
    (d : gmap string (gset positive)) : gmap string (gset positive) :=
  let d1 := match d !! user_id with
            | None => <[user_id := ∅]> d
            | Some _ => d
            end in
  alter (λ s, s ∪ {[q]}) user_id d1.

(** The body shared by the three branches of [remove_connection]:
    [d[user_id].discard(queue)] then [if not d[user_id]: del d[user_id]]. *)
Definition dict_discard (user_id : string) (q : positive)
    (d : gmap string (gset positive)) : gmap string (gset positive) :=
  let d1 := alter (λ s, s ∖ {[q]}) user_id d in
  match d1 !! user_id with
  | Some s => if decide (s = ∅) then delete user_id d1 else d1
  | None => d1
  end.

Definition add_connection (user_id user_role : string) (q : positive)
    (self : RealtimeService) : RealtimeService :=
  if decide (user_role = "admin") then
    {| admin_connections := dict_add user_id q (admin_connections self);
       user_connections := user_connections self;
       master_connections := master_connections self |}
  else if decide (user_role = "master") then
    {| admin_connections := admin_connections self;
       user_connections := user_connections self;
       master_connections := dict_add user_id q (master_connections self) |}
  else
    {| admin_connections := admin_connections self;
       user_connections := dict_add user_id q (user_connections self);
       master_connections := master_connections self |}.

Definition remove_connection (user_id user_role : string) (q : positive)
    (self : RealtimeService) : RealtimeService :=
  if bool_decide (user_role = "admin")
     && bool_decide (is_Some (admin_connections self !! user_id)) then
    {| admin_connections := dict_discard user_id q (admin_connections self);
       user_connections := user_connections self;
       master_connections := master_connections self |}
  else if bool_decide (user_role = "master")
          && bool_decide (is_Some (master_connections self !! user_id)) then
    {| admin_connections := admin_connections self;
       user_connections := user_connections self;
       master_connections := dict_discard user_id q (master_connections self) |}
  else if bool_decide (is_Some (user_connections self !! user_id)) then
    {| admin_connections := admin_connections self;
       user_connections := dict_discard user_id q (user_connections self);
       master_connections := master_connections self |}
  else self.

(** The dictionary [add_connection] selects for a role. *)
Definition connections_of (user_role : string) (self : RealtimeService)
    : gmap string (gset positive) :=
  if decide (user_role = "admin") then admin_connections self
  else if decide (user_role = "master") then master_connections self
  else user_connections self.

(** [for queue in queues.copy(): await queue.put(json.dumps(message))].
    The [except] branch is dead: the item is serialisable and [put] on an
    unbounded queue does not raise. *)
Definition put_all (item : message) (qs : gset positive) (h : heap) : heap :=
  foldr (put item) h (elements qs).

Definition notify_user (user_id : string) (item : message)
    (self : RealtimeService) (h : heap) : heap :=
  match user_connections self !! user_id with
  | Some qs => put_all item qs h
  | None => h
  end.

Definition notify_admins (item : message) (self : RealtimeService) (h : heap) : heap :=
  map_fold (λ _ qs acc, put_all item qs acc) h (admin_connections self).

Definition notify_masters (item : message) (self : RealtimeService) (h : heap) : heap :=
  map_fold (λ _ qs acc, put_all item qs acc) h (master_connections self).

Definition notify_group_members (item : message) (self : RealtimeService) (h : heap) : heap :=
  map_fold (λ _ qs acc, put_all item qs acc) h (user_connections self).


(** The registration step of [sse_endpoint]'s [event_stream]:
    [queue = asyncio.Queue()] at the identity [q], then [add_connection]. *)
Definition sse_connect (user_id user_role : string) (q : positive)
    (self : RealtimeService) (h : heap) : RealtimeService * heap :=
  (add_connection user_id user_role q self, <[q := []]> h).

(** The [finally] clause of [event_stream]. *)
Definition sse_disconnect (user_id user_role : string) (q : positive)
    (self : RealtimeService) : RealtimeService :=
  remove_connection user_id user_role q self.

(** No user id is left mapped to an empty set of queues. *)
Definition no_empty_entry (d : gmap string (gset positive)) : Prop :=
  ∀ uid, d !! uid ≠ Some ∅.

Definition registry_wf (self : RealtimeService) : Prop :=
  no_empty_entry (admin_connections self) ∧
  no_empty_entry (user_connections self) ∧
  no_empty_entry (master_connections self).

(** The registries the service goes through: it starts empty and changes
    by [add_connection] and [remove_connection] only. *)
Inductive reachable : RealtimeService → Prop :=
| reachable_init : reachable init
| reachable_add user_id user_role q self :
    reachable self → reachable (add_connection user_id user_role q self)
| reachable_remove user_id user_role q self :
    reachable self → reachable (remove_connection user_id user_role q self).

(** Under how many user ids of a dictionary a queue is registered. *)
Definition registrations (q : positive) (d : gmap string (gset positive)) : nat :=
  length (List.filter (λ kv : string * gset positive, bool_decide (q ∈ kv.2))
            (map_to_list d)).

End Realtime.

(* ===================================================================== *)
(** ** The document store                                                 *)
(* ===================================================================== *)

(** MongoDB collection calls, on a collection kept as the list of its
    documents in insertion order (the order [find_one] and [update_one]
    scan in).  The store is taken to answer every call: the [except]
    branches that turn a driver error into [status False] or HTTP 500 are
    not part of the model. *)
Module Mongo.
Section Collection.
Context {D : Type}.

(** [collection.find(query)] *)
Definition find (query : D → bool) (c : list D) : list D := List.filter query c.

(** [collection.find_one(query)] *)
Definition find_one (query : D → bool) (c : list D) : option D := List.find query c.

(** [collection.insert_one(document)] *)
Definition insert_one (document : D) (c : list D) : list D := c ++ [document].

(** [collection.update_one(query, {"$set": ..})]: the first match only. *)
Fixpoint update_one (query : D → bool) (set : D → D) (c : list D) : list D :=
  match c with
  | [] => []
  | d :: rest => if query d then set d :: rest else d :: update_one query set rest
  end.

(** [collection.update_many(query, {"$set": ..})] *)
Definition update_many (query : D → bool) (set : D → D) (c : list D) : list D :=
  map (λ d, if query d then set d else d) c.

(** [collection.count_documents(query)] *)
Definition count_documents (query : D → bool) (c : list D) : nat := length (find query c).
End Collection.
End Mongo.

(* ===================================================================== *)
(** ** Documents, services and API handlers                               *)
(* ===================================================================== *)

Module Backend.
Import Mongo.

(** *** Documents.  Keys that no modelled function reads or rewrites
    (passwords, broker and server names, balances other than the opening
    one, copy settings) are left out. *)

Record user := {
  u_oid : string;                      (* _id *)
  u_user_id : option string;           (* legacy uuid "user_id" *)
  u_name : option string;
  u_role : string;
  u_ib_status : option string;
  u_group_id : option string;
  u_group_join_date : option Z;
  u_referral_code_used : option string;
  u_updated_at : Z
}.

(** The value a member or trading-account document carries under
    "user_id": the id string, or the whole user document where the handler
    stores what [verify_admin_or_manager] returned.  The store compares an
    embedded document key by key; the modelled functions write no key of a
    user document that [user] leaves out, so two documents read from
    [users] in a run of them are equal in the store exactly when they are
    equal here. *)
Inductive user_ref :=
| UserId (user_id : string)
| UserDoc (user : user).

#[global] Instance user_eq_dec : EqDecision user.
Proof. solve_decision. Defined.
#[global] Instance user_ref_eq_dec : EqDecision user_ref.
Proof. solve_decision. Defined.

Record group := {
  g_oid : string;                      (* _id *)
  g_group_id : option string;          (* uuid "group_id" of GroupService documents *)
  g_group_name : string;
  g_company_name : string;
  g_profit_sharing_percent : option float;
  g_settlement_cycle : string;
  g_api_key : option string;
  g_referral_code : option string;
  g_trading_status : string;
  g_status : string;
  g_master_accounts : list (option string);   (* trade_copier_master_id of each *)
  g_total_members : Z;
  g_active_members : Z;
  g_updated_at : Z
}.

Record member := {
  m_oid : string;                      (* _id *)
  m_member_id : option string;         (* uuid "member_id" of MemberService documents *)
  m_user_id : user_ref;
  m_group_id : string;
  m_account_id : option string;
  m_status : string;
  m_opening_balance : float;
  m_joined_at : option Z;
  m_approved_at : option Z;
  m_approved_by : option string;
  m_left_at : option Z;
  m_slave_account_id : option string;  (* trade_copier_mapping.slave_account_id *)
  m_master_account_id : option string; (* trade_copier_mapping.master_account_id *)
  m_added_by : option string;
  m_updated_at : option Z
}.

Record trading_account := {
  a_oid : string;                      (* _id *)
  a_user_id : user_ref;
  a_group_id : option string;
  a_account_number : string;
  a_status : string;
  a_updated_at : Z
}.

Record settlement := {
  s_settlement_id : string;
  s_group_id : string;
  s_period_from : Z;
  s_period_to : Z;
  s_total_profit : float;
  s_profit_share_percent : float;
  s_amount_due : float;
  s_amount_paid : float;
  s_payment_method : string;
  s_payment_reference : string;
  s_payment_proof_file : option string;
  s_status : string;
  s_submitted_by : string;
  s_approved_by : option string;
  s_approved_at : option Z;
  s_remarks : option string;
  s_auto_paused : bool;
  s_submitted_at : Z;
  s_created_at : Z;
  s_updated_at : Z
}.

(** The database: one list per collection. *)
Record db := {
  users : list user;
  groups : list group;
  members : list member;
  trading_accounts : list trading_account;
  settlements : list settlement
}.

Definition set_users (f : list user → list user) (d : db) : db :=
  {| users := f (users d); groups := groups d; members := members d;
     trading_accounts := trading_accounts d; settlements := settlements d |}.
Definition set_groups (f : list group → list group) (d : db) : db :=
  {| users := users d; groups := f (groups d); members := members d;
     trading_accounts := trading_accounts d; settlements := settlements d |}.
Definition set_members (f : list member → list member) (d : db) : db :=
  {| users := users d; groups := groups d; members := f (members d);
     trading_accounts := trading_accounts d; settlements := settlements d |}.
Definition set_trading_accounts (f : list trading_account → list trading_account) (d : db) : db :=
  {| users := users d; groups := groups d; members := members d;
     trading_accounts := f (trading_accounts d); settlements := settlements d |}.
Definition set_settlements (f : list settlement → list settlement) (d : db) : db :=
  {| users := users d; groups := groups d; members := members d;
     trading_accounts := trading_accounts d; settlements := f (settlements d) |}.

(** *** Results *)

(** The [{"status": .., "message": .., "data": ..}] dictionary the services
    return, or the [KeyError] of a subscript on a missing key. *)
Inductive reply (A : Type) :=
| StatusTrue (message : string) (data : A)
| StatusFalse (message : string)
| KeyError (key : string).
Arguments StatusTrue {A} _ _.
Arguments StatusFalse {A} _.
Arguments KeyError {A} _.

(** What a FastAPI handler ends with: an [APIResponse] or a raised
    [HTTPException(status_code, detail)]. *)
Record APIResponse := {
  success : bool;
  message : string;
  data : list (string * Realtime.value)
}.

Inductive http :=
| Response (r : APIResponse)
| HTTPException (status_code : Z) (detail : string).


(** *** utils/mongo.py: [update_document] stamps [updated_at] itself. *)

(** The [update_data] dictionaries passed for a group, as optional keys. *)
Record group_update := {
  up_group_name : option string;
  up_company_name : option string;
  up_profit_sharing_percent : option float;
  up_settlement_cycle : option string;
  up_trading_status : option string;
  up_status : option string;
  up_api_key : option string;
  up_total_members : option Z;
  up_active_members : option Z
}.

(** [{"$set": update_data}] with [update_data['updated_at'] = utcnow()]. *)
Definition apply_group_update (u : group_update) (now : Z) (g : group) : group :=
  {| g_oid := g_oid g;
     g_group_id := g_group_id g;
     g_group_name := default (g_group_name g) (up_group_name u);
     g_company_name := default (g_company_name g) (up_company_name u);
     g_profit_sharing_percent :=
       match up_profit_sharing_percent u with
       | Some p => Some p
       | None => g_profit_sharing_percent g
       end;
     g_settlement_cycle := default (g_settlement_cycle g) (up_settlement_cycle u);
     g_api_key :=
       match up_api_key u with Some k => Some k | None => g_api_key g end;
     g_referral_code := g_referral_code g;
     g_trading_status := default (g_trading_status g) (up_trading_status u);
     g_status := default (g_status g) (up_status u);
     g_master_accounts := g_master_accounts g;
     g_total_members := default (g_total_members g) (up_total_members u);
     g_active_members := default (g_active_members g) (up_active_members u);
     g_updated_at := now |}.

Definition by_group_id (group_id : string) (g : group) : bool :=
  bool_decide (g_group_id g = Some group_id).

(** [update_document(DB, "groups", "group_id", group_id, update_data)] *)
Definition update_group_document (group_id : string) (u : group_update)
    (now : Z) (d : db) : db :=
  set_groups (update_one (by_group_id group_id) (apply_group_update u now)) d.

(** *** services/group_service.py *)

(** [get_group_by_id]: [Some] is [{"status": True, "data": group}]. *)
Definition get_group_by_id (group_id : string) (d : db) : option group :=
  find_one (by_group_id group_id) (groups d).

Definition update_group (group_id : string) (update_data : group_update)
    (user_id : string) (now : Z) (d : db) : reply group * db :=
  match get_group_by_id group_id d with
  | None => (StatusFalse "Group not found", d)
  | Some _ =>
      let d' := update_group_document group_id update_data now d in
      match get_group_by_id group_id d' with
      | Some updated => (StatusTrue "Group updated successfully" updated, d')
      | None => (KeyError "data", d')
      end
  end.

Definition toggle_trading_status (group_id status user_id : string)
    (now : Z) (d : db) : reply unit * db :=
  match get_group_by_id group_id d with
  | None => (StatusFalse "Group not found", d)
  | Some _ =>
      let update_data :=
        {| up_group_name := None; up_company_name := None;
           up_profit_sharing_percent := None; up_settlement_cycle := None;
           up_trading_status := Some status; up_status := None;
           up_api_key := None; up_total_members := None;
           up_active_members := None |} in
      (StatusTrue ("Trading status updated to " +:+ status) (),
       update_group_document group_id update_data now d)
  end.

Definition regenerate_api_key (group_id user_id new_api_key : string)
    (now : Z) (d : db) : reply string * db :=
  match get_group_by_id group_id d with
  | None => (StatusFalse "Group not found", d)
  | Some _ =>
      let update_data :=
        {| up_group_name := None; up_company_name := None;
           up_profit_sharing_percent := None; up_settlement_cycle := None;
           up_trading_status := None; up_status := None;
           up_api_key := Some new_api_key; up_total_members := None;
           up_active_members := None |} in
      (StatusTrue "API key regenerated successfully" new_api_key,
       update_group_document group_id update_data now d)
  end.

(** *** services/settlement_service.py *)

Record calculation := {
  c_total_profit : float;
  c_profit_share_percent : float;
  c_amount_due : float;
  c_period_from : Z;
  c_period_to : Z
}.

(** The trade copier is mocked in the source: a fixed profit of 15000.0. *)
Definition mock_profit : float := 15000%float.

Definition get_group_profit_from_trade_copier (group_id : string)
    (period_from period_to : Z) : reply float :=
  StatusTrue "" mock_profit.

Definition calculate_profit_sharing (group_id : string)
    (period_from period_to : Z) (d : db) : reply calculation :=
  match get_group_by_id group_id d with
  | None => StatusFalse "Group not found"
  | Some group =>
      match get_group_profit_from_trade_copier group_id period_from period_to with
      | StatusTrue _ total_profit =>
          match g_profit_sharing_percent group with
          | None => KeyError "profit_sharing_percent"
          | Some percent =>
              let profit_share_amount :=
                PrimFloat.mul total_profit (PrimFloat.div percent 100%float) in
              StatusTrue ""
                {| c_total_profit := total_profit;
                   c_profit_share_percent := percent;
                   c_amount_due := profit_share_amount;
                   c_period_from := period_from;
                   c_period_to := period_to |}
          end
      | _ => StatusFalse "Failed to get profit data"
      end
  end.

(** [models/settlement.py: SettlementCreate] *)
Record SettlementCreate := {
  sc_group_id : string;
  sc_period_from : Z;
  sc_period_to : Z;
  sc_payment_method : string;
  sc_payment_reference : string;
  sc_amount_paid : float;
  sc_payment_proof_file : option string
}.

(** [uuid] is the [str(uuid.uuid4())] drawn for the record. *)
Definition submit_settlement (settlement_data : SettlementCreate)
    (submitted_by uuid : string) (now : Z) (d : db) : reply settlement * db :=
  match calculate_profit_sharing (sc_group_id settlement_data)
          (sc_period_from settlement_data) (sc_period_to settlement_data) d with
  | StatusTrue _ calc_data =>
      let settlement_record :=
        {| s_settlement_id := uuid;
           s_group_id := sc_group_id settlement_data;
           s_period_from := sc_period_from settlement_data;
           s_period_to := sc_period_to settlement_data;
           s_total_profit := c_total_profit calc_data;
           s_profit_share_percent := c_profit_share_percent calc_data;
           s_amount_due := c_amount_due calc_data;
           s_amount_paid := sc_amount_paid settlement_data;
           s_payment_method := sc_payment_method settlement_data;
           s_payment_reference := sc_payment_reference settlement_data;
           s_payment_proof_file := sc_payment_proof_file settlement_data;
           s_status := "pending";
           s_submitted_by := submitted_by;
           s_approved_by := None;
           s_approved_at := None;
           s_remarks := None;
           s_auto_paused := false;
           s_submitted_at := now;
           s_created_at := now;
           s_updated_at := now |} in
      (StatusTrue "Settlement submitted successfully" settlement_record,
       set_settlements (insert_one settlement_record) d)
  | StatusFalse m => (StatusFalse m, d)
  | KeyError k => (KeyError k, d)
  end.

(** [models/settlement.py: SettlementApproval]; [sa_status] is validated
    at the boundary to be "approved" or "rejected". *)
Record SettlementApproval := {
  sa_admin_otp : string;
  sa_status : string;
  sa_remarks : option string
}.

Definition by_settlement_id (settlement_id : string) (s : settlement) : bool :=
  bool_decide (s_settlement_id s = settlement_id).

(** The [$set] of [approve_settlement]: status, approved_by, approved_at,
    remarks and the [updated_at] stamp of [update_document]. *)
Definition set_approval (approval_data : SettlementApproval) (admin_id : string)
    (now : Z) (s : settlement) : settlement :=
  {| s_settlement_id := s_settlement_id s;
     s_group_id := s_group_id s;
     s_period_from := s_period_from s;
     s_period_to := s_period_to s;
     s_total_profit := s_total_profit s;
     s_profit_share_percent := s_profit_share_percent s;
     s_amount_due := s_amount_due s;
     s_amount_paid := s_amount_paid s;
     s_payment_method := s_payment_method s;
     s_payment_reference := s_payment_reference s;
     s_payment_proof_file := s_payment_proof_file s;
     s_status := sa_status approval_data;
     s_submitted_by := s_submitted_by s;
     s_approved_by := Some admin_id;
     s_approved_at := Some now;
     s_remarks := sa_remarks approval_data;
     s_auto_paused := s_auto_paused s;
     s_submitted_at := s_submitted_at s;
     s_created_at := s_created_at s;
     s_updated_at := now |}.

Definition resume_group_if_paused (settlement_id : string) (now : Z) (d : db) : db :=
  match find (by_settlement_id settlement_id) (settlements d) with
  | settlement :: _ =>
      let group_id := s_group_id settlement in
      snd (toggle_trading_status group_id "active" "system" now d)
  | [] => d
  end.

(** [result["status"]] of the update is [True] (the store answers), so the
    branch is decided by the requested status alone. *)
Definition approve_settlement (settlement_id : string)
    (approval_data : SettlementApproval) (admin_id : string) (now : Z) (d : db)
    : reply unit * db :=
  let d1 := set_settlements
              (update_one (by_settlement_id settlement_id)
                          (set_approval approval_data admin_id now)) d in
  if bool_decide (sa_status approval_data = "approved") then
    (StatusTrue "Settlement approved successfully" (),
     resume_group_if_paused settlement_id now d1)
  else
    (StatusFalse "Failed to update settlement", d1).

(** *** services/user_service.py *)

(** [get_user_by_id]: by the legacy [user_id] key first, then by [_id]. *)
Definition get_user_by_id (user_id : string) (d : db) : option user :=
  match find_one (λ u, bool_decide (u_user_id u = Some user_id)) (users d) with
  | Some u => Some u
  | None => find_one (λ u, bool_decide (u_oid u = user_id)) (users d)
  end.

(** *** services/member_service.py *)

(** [models/member.py: MemberCreate] *)
Record MemberCreate := {
  mc_user_id : string;
  mc_group_id : string;
  mc_broker : string;
  mc_server : string;
  mc_account_no : string;
  mc_password : string;
  mc_opening_balance : float
}.

(** The two builtins of the interpreter that [verify_mt5_account] calls,
    on the text a string of the model stands for: [str.isdigit()], which
    goes by the Unicode digit property of every code point, and [len()],
    which counts code points.  Neither is code of the repository; both are
    taken as given. *)
Record builtins := {
  str_isdigit : string → bool;
  str_len : string → nat
}.

(** [verify_mt5_account]: [None] is [status True], [Some m] is the failure
    message. *)
Definition verify_mt5_account (py : builtins)
    (broker server account_no password : string) : option string :=
  if bool_decide (broker = "") || bool_decide (server = "")
     || bool_decide (account_no = "") || bool_decide (password = "") then
    Some "All account fields are required"
  else if negb (str_isdigit py account_no) then
    Some "Account number must be numeric"
  else if (str_len py password <? 4)%nat then
    Some "Password must be at least 4 characters"
  else None.

Definition by_member_id (member_id : string) (m : member) : bool :=
  bool_decide (m_member_id m = Some member_id).

Definition set_trade_copier_mapping (slave master : option string) (now : Z)
    (m : member) : member :=
  {| m_oid := m_oid m; m_member_id := m_member_id m; m_user_id := m_user_id m;
     m_group_id := m_group_id m; m_account_id := m_account_id m;
     m_status := m_status m; m_opening_balance := m_opening_balance m;
     m_joined_at := m_joined_at m; m_approved_at := m_approved_at m;
     m_approved_by := m_approved_by m; m_left_at := m_left_at m;
     m_slave_account_id := slave; m_master_account_id := master;
     m_added_by := m_added_by m; m_updated_at := Some now |}.

Definition update_group_member_count (group_id : string) (now : Z) (d : db)
    : (Z * Z) * db :=
  let total_result :=
    find (λ m, bool_decide (m_group_id m = group_id)
               && negb (bool_decide (m_status m = "deleted"))) (members d) in
  let active_result :=
    find (λ m, bool_decide (m_group_id m = group_id)
               && bool_decide (m_status m = "active")) (members d) in
  let total_count := Z.of_nat (length total_result) in
  let active_count := Z.of_nat (length active_result) in
  let update_data :=
    {| up_group_name := None; up_company_name := None;
       up_profit_sharing_percent := None; up_settlement_cycle := None;
       up_trading_status := None; up_status := None; up_api_key := None;
       up_total_members := Some total_count;
       up_active_members := Some active_count |} in
  ((total_count, active_count), update_group_document group_id update_data now d).

(** [create_slave_in_trade_copier]: [add_slave_account] is the external
    trade copier's answer, [Some slave_id] on HTTP 200.  With no master
    account the subscript [master_accounts[0]] raises inside the [try]
    and the result is [status False]. *)
Definition create_slave_in_trade_copier (group : group)
    (add_slave_account : option string) : option string :=
  match add_slave_account, g_master_accounts group, g_group_id group with
  | Some slave_id, _ :: _, Some _ => Some slave_id
  | _, _, _ => None
  end.

(** [uuid] is the generated [member_id], [oid] the [_id] the store assigns
    on insertion. *)
Definition add_member_to_group (py : builtins) (member_data : MemberCreate)
    (added_by uuid oid : string) (add_slave_account : option string)
    (now : Z) (d : db) : reply member * db :=
  match get_user_by_id (mc_user_id member_data) d with
  | None => (StatusFalse "User not found", d)
  | Some _ =>
  match get_group_by_id (mc_group_id member_data) d with
  | None => (StatusFalse "Group not found", d)
  | Some group =>
  let existing_member :=
    find (λ m, bool_decide (m_user_id m = UserId (mc_user_id member_data))
               && bool_decide (m_group_id m = mc_group_id member_data)
               && negb (bool_decide (m_status m = "deleted"))) (members d) in
  match existing_member with
  | _ :: _ => (StatusFalse "User is already a member of this group", d)
  | [] =>
  match verify_mt5_account py (mc_broker member_data) (mc_server member_data)
          (mc_account_no member_data) (mc_password member_data) with
  | Some msg => (StatusFalse ("MT5 account verification failed: " +:+ msg), d)
  | None =>
      let member_record :=
        {| m_oid := oid; m_member_id := Some uuid;
           m_user_id := UserId (mc_user_id member_data);
           m_group_id := mc_group_id member_data;
           m_account_id := None;
           m_status := "active";
           m_opening_balance := mc_opening_balance member_data;
           m_joined_at := None; m_approved_at := None; m_approved_by := None;
           m_left_at := None;
           m_slave_account_id := None; m_master_account_id := None;
           m_added_by := Some added_by; m_updated_at := Some now |} in
      let d1 := set_members (insert_one member_record) d in
      let '(member_record, d2) :=
        match create_slave_in_trade_copier group add_slave_account with
        | Some slave_id =>
            let master := mjoin (head (g_master_accounts group)) in
            (set_trade_copier_mapping (Some slave_id) master now member_record,
             set_members (update_one (by_member_id uuid)
                            (set_trade_copier_mapping (Some slave_id) master now)) d1)
        | None => (member_record, d1)
        end in
      let d3 := snd (update_group_member_count (mc_group_id member_data) now d2) in
      (StatusTrue "Member added successfully" member_record, d3)
  end end end end.

(** *** api/groups.py *)

Definition by_oid_user (oid : string) (u : user) : bool := bool_decide (u_oid u = oid).
Definition by_oid_member (oid : string) (m : member) : bool := bool_decide (m_oid m = oid).
Definition by_oid_account (oid : string) (a : trading_account) : bool :=
  bool_decide (a_oid a = oid).

Definition set_left (now : Z) (m : member) : member :=
  {| m_oid := m_oid m; m_member_id := m_member_id m; m_user_id := m_user_id m;
     m_group_id := m_group_id m; m_account_id := m_account_id m;
     m_status := "left"; m_opening_balance := m_opening_balance m;
     m_joined_at := m_joined_at m; m_approved_at := m_approved_at m;
     m_approved_by := m_approved_by m; m_left_at := Some now;
     m_slave_account_id := m_slave_account_id m;
     m_master_account_id := m_master_account_id m;
     m_added_by := m_added_by m; m_updated_at := m_updated_at m |}.

Definition set_account_status (status : string) (now : Z) (a : trading_account)
    : trading_account :=
  {| a_oid := a_oid a; a_user_id := a_user_id a; a_group_id := a_group_id a;
     a_account_number := a_account_number a; a_status := status;
     a_updated_at := now |}.

(** [{"$unset": {group_id, group_join_date, referral_code_used},
     "$set": {updated_at}}] *)
Definition unset_group (now : Z) (u : user) : user :=
  {| u_oid := u_oid u; u_user_id := u_user_id u; u_name := u_name u;
     u_role := u_role u; u_ib_status := u_ib_status u;
     u_group_id := None; u_group_join_date := None;
     u_referral_code_used := None; u_updated_at := now |}.

Definition set_group (group_id : string) (referral_code_used : option string)
    (now : Z) (u : user) : user :=
  {| u_oid := u_oid u; u_user_id := u_user_id u; u_name := u_name u;
     u_role := u_role u; u_ib_status := u_ib_status u;
     u_group_id := Some group_id; u_group_join_date := Some now;
     u_referral_code_used := referral_code_used; u_updated_at := now |}.

(** The block both referral and API-key joins run when the user document
    already carries a non-null [group_id]: mark the member records of the
    previous group as left, deactivate its trading accounts, unset the
    user's group keys. *)
Definition leave_previous_group (existing_membership : user)
    (current_user_id : string) (now : Z) (d : db) : db :=
  let d1 :=
    match u_group_id existing_membership with
    | Some prev_group_id =>
        if bool_decide (prev_group_id ≠ "") then
          let d' :=
            set_members
              (update_many
                 (λ m, bool_decide (m_user_id m = UserId current_user_id)
                       && bool_decide (m_group_id m = prev_group_id)
                       && negb (bool_decide (m_status m = "left")))
                 (set_left now)) d in
          set_trading_accounts
            (update_many
               (λ a, bool_decide (a_user_id a = UserId current_user_id)
                     && bool_decide (a_group_id a = Some prev_group_id))
               (set_account_status "inactive" now)) d'
        else d
    | None => d
    end in
  set_users (update_one (by_oid_user current_user_id) (unset_group now)) d1.

(** [db.users.find_one({"_id": .., "group_id": {"$exists": True, "$ne": None}})] *)
Definition find_existing_membership (current_user_id : string) (d : db) : option user :=
  find_one (λ u, by_oid_user current_user_id u
                 && bool_decide (is_Some (u_group_id u))) (users d).

Definition joined_response (group : group) (now : Z) : APIResponse :=
  {| success := true;
     message := "Successfully joined group: " +:+ g_group_name group;
     data := [("group_id", Realtime.Str (g_oid group));
              ("group_name", Realtime.Str (g_group_name group));
              ("company_name", Realtime.Str (g_company_name group));
              ("join_date", Realtime.Isoformat now)] |}.

Definition group_joined_event (group : group) (now : Z) : Realtime.message :=
  Realtime.Message "group_joined"
    [("message", Realtime.Str ("Successfully joined group: " +:+ g_group_name group));
     ("group_id", Realtime.Str (g_oid group));
     ("group_name", Realtime.Str (g_group_name group));
     ("join_date", Realtime.Isoformat now)] now.

Definition new_group_member_event (group : group)
    (current_user_id user_name : string) (now : Z) : Realtime.message :=
  Realtime.Message "new_group_member"
    [("message", Realtime.Str ("New member joined " +:+ g_group_name group
                                +:+ ": " +:+ user_name));
     ("group_id", Realtime.Str (g_oid group));
     ("group_name", Realtime.Str (g_group_name group));
     ("user_id", Realtime.Str current_user_id);
     ("user_name", Realtime.Str user_name);
     ("join_date", Realtime.Isoformat now)] now.

(** The state the join handlers act on: the database and the heap of
    connection queues; the registry [rt] is only read. *)
Definition world : Type := db * Realtime.heap.

Definition join_group_by_referral (referral_code current_user_id : string)
    (now : Z) (rt : Realtime.RealtimeService) (w : world) : http * world :=
  let '(d, h) := w in
  match find_one (λ g, bool_decide (g_referral_code g = Some referral_code)
                       || bool_decide (g_api_key g = Some referral_code))
                 (groups d) with
  | None => (HTTPException 404 "Invalid referral code or API key", (d, h))
  | Some group =>
      let group_id := g_oid group in
      let d1 :=
        match find_existing_membership current_user_id d with
        | Some existing_membership =>
            leave_previous_group existing_membership current_user_id now d
        | None => d
        end in
      match find_one (by_oid_user current_user_id) (users d1) with
      | None => (HTTPException 404 "User not found", (d1, h))
      | Some user =>
          if negb (bool_decide (u_ib_status user = Some "approved")) then
            (HTTPException 400 "IB change must be approved before joining a group",
             (d1, h))
          else
            let d2 :=
              set_users (update_one (by_oid_user current_user_id)
                           (set_group group_id (Some referral_code) now)) d1 in
            let user_name :=
              match find_one (by_oid_user current_user_id) (users d2) with
              | Some user => default "Unknown" (u_name user)
              | None => "Unknown"
              end in
            let h1 :=
              Realtime.notify_user current_user_id (group_joined_event group now) rt h in
            let h2 :=
              Realtime.notify_masters
                (new_group_member_event group current_user_id user_name now) rt h1 in
            (Response (joined_response group now), (d2, h2))
      end
  end.

Definition join_group_by_api_key (api_key current_user_id : string)
    (now : Z) (rt : Realtime.RealtimeService) (w : world) : http * world :=
  let '(d, h) := w in
  match find_one (λ g, bool_decide (g_api_key g = Some api_key)) (groups d) with
  | None => (HTTPException 404 "Invalid API key", (d, h))
  | Some group =>
      let group_id := g_oid group in
      let d1 :=
        match find_existing_membership current_user_id d with
        | Some existing_membership =>
            leave_previous_group existing_membership current_user_id now d
        | None => d
        end in
      match find_one (by_oid_user current_user_id) (users d1) with
      | None => (HTTPException 404 "User not found", (d1, h))
      | Some user =>
          if negb (bool_decide (u_ib_status user = Some "approved")) then
            (HTTPException 400 "IB change must be approved before joining a group",
             (d1, h))
          else
            let d2 :=
              set_users (update_one (by_oid_user current_user_id)
                           (set_group group_id None now)) d1 in
            let h1 :=
              Realtime.notify_user current_user_id (group_joined_event group now) rt h in
            (Response (joined_response group now), (d2, h1))
      end
  end.

(** [models: JoinGroupRequest], the keys of the account that are kept. *)
Record JoinGroupRequest := {
  jr_referral_code : string;
  jr_account_number : string
}.

(** What a FastAPI dependency hands to the handler, or the exception it
    raises instead. *)
Inductive depends (A : Type) :=
| Resolved (a : A)
| Refused (status_code : Z) (detail : string).
Arguments Resolved {A} _.
Arguments Refused {A} _ _.

(** [verify_admin_or_manager]: [current_user_id] is the id string that
    [get_current_user] reads from the token; the dependency returns the
    user document it found. *)
Definition verify_admin_or_manager (current_user_id : string) (d : db)
    : depends user :=
  match find_one (by_oid_user current_user_id) (users d) with
  | None => Refused 404 "User not found"
  | Some user =>
      if bool_decide (u_role user = "admin")
         || bool_decide (u_role user = "group_manager")
      then Resolved user
      else Refused 403 "Admin or Group Manager access required"
  end.

(** [join_group], the admin-only direct join, as the framework runs it:
    the dependency [verify_admin_or_manager] first, on the id [caller] of
    the token, then the body with the parameter [current_user_id] bound to
    what the dependency returned.  That is the user document, and the body
    queries [members] by it and stores it under "user_id" of both inserted
    documents.  [account_oid] and [member_oid] are the ids the store
    assigns to them. *)
Definition join_group (group_id : string) (join_data : JoinGroupRequest)
    (caller account_oid member_oid : string) (now : Z) (d : db)
    : http * db :=
  match verify_admin_or_manager caller d with
  | Refused status_code detail => (HTTPException status_code detail, d)
  | Resolved current_user_id =>
  match find_one (λ g, bool_decide (g_oid g = group_id)) (groups d) with
  | None => (HTTPException 404 "Group not found", d)
  | Some _ =>
      match find_one (λ m, bool_decide (m_user_id m = UserDoc current_user_id)
                           && bool_decide (m_group_id m = group_id))
                     (members d) with
      | Some _ => (HTTPException 400 "Already a member of this group", d)
      | None =>
          let trading_account :=
            {| a_oid := account_oid; a_user_id := UserDoc current_user_id;
               a_group_id := Some group_id;
               a_account_number := jr_account_number join_data;
               a_status := "pending"; a_updated_at := now |} in
          let d1 := set_trading_accounts (insert_one trading_account) d in
          let member_doc :=
            {| m_oid := member_oid; m_member_id := None;
               m_user_id := UserDoc current_user_id; m_group_id := group_id;
               m_account_id := Some account_oid;
               m_status := "pending";
               m_opening_balance := 0%float;
               m_joined_at := Some now; m_approved_at := None;
               m_approved_by := None; m_left_at := None;
               m_slave_account_id := None; m_master_account_id := None;
               m_added_by := None; m_updated_at := None |} in
          let d2 := set_members (insert_one member_doc) d1 in
          (Response {| success := true;
                       message := "Join request submitted successfully";
                       data := [("member_id", Realtime.Str member_oid);
                                ("account_id", Realtime.Str account_oid);
                                ("status", Realtime.Str "pending")] |},
           d2)
      end
  end
  end.

(** The [$set] of [approve_member]. *)
Definition set_approved (approver : string) (now : Z) (m : member) : member :=
  {| m_oid := m_oid m; m_member_id := m_member_id m; m_user_id := m_user_id m;
     m_group_id := m_group_id m; m_account_id := m_account_id m;
     m_status := "active"; m_opening_balance := m_opening_balance m;
     m_joined_at := m_joined_at m; m_approved_at := Some now;
     m_approved_by := Some approver; m_left_at := m_left_at m;
     m_slave_account_id := m_slave_account_id m;
     m_master_account_id := m_master_account_id m;
     m_added_by := m_added_by m; m_updated_at := m_updated_at m |}.

(** [result.modified_count] of that update: 1 when a document matched and
    one of the three keys changes value, else 0. *)
Definition approve_modified_count (member_id approver : string) (now : Z)
    (d : db) : nat :=
  match find_one (by_oid_member member_id) (members d) with
  | None => 0
  | Some m =>
      if bool_decide (m_status m = "active")
         && bool_decide (m_approved_at m = Some now)
         && bool_decide (m_approved_by m = Some approver)
      then 0 else 1
  end.

(** The second step of [approve_member], "also approve the trading
    account": [member] is the document read back after the update. *)
Definition approve_trading_account (member : option member) (now : Z) (d : db)
    : db :=
  match member with
  | Some member =>
      match m_account_id member with
      | Some account_id =>
          if bool_decide (account_id ≠ "") then
            set_trading_accounts
              (update_one (by_oid_account account_id)
                 (set_account_status "approved" now)) d
          else d
      | None => d
      end
  | None => d
  end.

Definition approved_response : http :=
  Response {| success := true; message := "Member approved successfully";
              data := [] |}.

(** [approve_member]; [approver] is [str(current_user["_id"])] of the
    admin or group manager the dependency resolved. *)
Definition approve_member (member_id approver : string) (now : Z) (d : db)
    : http * db :=
  let modified_count := approve_modified_count member_id approver now d in
  let d1 := set_members (update_one (by_oid_member member_id)
                           (set_approved approver now)) d in
  if (modified_count =? 0)%nat then
    (HTTPException 404 "Member not found", d1)
  else
    let member := find_one (by_oid_member member_id) (members d1) in
    (approved_response, approve_trading_account member now d1).

(** *** Runs of operations *)

(** The service calls that write a group document. *)
Inductive group_op :=
| UpdateGroup (group_id : string) (update_data : group_update)
    (user_id : string) (now : Z)
| ToggleTradingStatus (group_id status user_id : string) (now : Z)
| RegenerateApiKey (group_id user_id new_api_key : string) (now : Z)
| UpdateGroupMemberCount (group_id : string) (now : Z).

Definition run_group_op (op : group_op) (d : db) : db :=
  match op with
  | UpdateGroup group_id update_data user_id now =>
      snd (update_group group_id update_data user_id now d)
  | ToggleTradingStatus group_id status user_id now =>
      snd (toggle_trading_status group_id status user_id now d)
  | RegenerateApiKey group_id user_id new_api_key now =>
      snd (regenerate_api_key group_id user_id new_api_key now d)
  | UpdateGroupMemberCount group_id now =>
      snd (update_group_member_count group_id now d)
  end.

Definition run_group_ops (ops : list group_op) (d : db) : db :=
  foldl (λ d op, run_group_op op d) d ops.

(** The four ways of joining a group. *)
Inductive join_op :=
| JoinByReferral (referral_code current_user_id : string) (now : Z)
| JoinByApiKey (api_key current_user_id : string) (now : Z)
| JoinGroup (group_id : string) (join_data : JoinGroupRequest)
    (caller account_oid member_oid : string) (now : Z)
| AddMemberToGroup (member_data : MemberCreate) (added_by uuid oid : string)
    (add_slave_account : option string) (now : Z).



(** *** Membership invariants *)







(** *** services/group_service.py: creation *)

(** [models/group.py: MasterAccount], the keys that identify the account. *)
Record MasterAccount := {
  ma_account_no : string;
  ma_broker : string;
  ma_server : string
}.

(** [models/group.py: GroupCreate] *)
Record GroupCreate := {
  gc_group_name : string;
  gc_company_name : string;
  gc_profit_sharing_percent : float;
  gc_settlement_cycle : string;
  gc_master_accounts : list MasterAccount
}.

(** The loop [for i, master_id in enumerate(trade_copier_master_ids)]: the
    i-th collected id is written to the i-th master account. *)
Fixpoint assign_master_ids (ids : list string) (accounts : list (option string))
    : list (option string) :=
  match ids, accounts with
  | master_id :: ids', _ :: accounts' => Some master_id :: assign_master_ids ids' accounts'
  | _, _ => accounts
  end.

Definition set_master_accounts (master_accounts : list (option string)) (now : Z)
    (g : group) : group :=
  {| g_oid := g_oid g; g_group_id := g_group_id g; g_group_name := g_group_name g;
     g_company_name := g_company_name g;
     g_profit_sharing_percent := g_profit_sharing_percent g;
     g_settlement_cycle := g_settlement_cycle g; g_api_key := g_api_key g;
     g_referral_code := g_referral_code g; g_trading_status := g_trading_status g;
     g_status := g_status g; g_master_accounts := master_accounts;
     g_total_members := g_total_members g; g_active_members := g_active_members g;
     g_updated_at := now |}.

(** [GroupService.create_group].  [uuid] is the generated [group_id], [oid]
    the [_id] the store assigns, [api_key] the generated key and
    [add_master_account] the external trade copier's answer for an account,
    [Some master_id] on HTTP 200. *)
Definition create_group (group_data : GroupCreate)
    (created_by uuid oid api_key : string)
    (add_master_account : MasterAccount → option string)
    (now : Z) (d : db) : reply group * db :=
  match find (λ g, bool_decide (g_group_name g = gc_group_name group_data))
             (groups d) with
  | _ :: _ => (StatusFalse "Group with this name already exists", d)
  | [] =>
      let group_record :=
        {| g_oid := oid; g_group_id := Some uuid;
           g_group_name := gc_group_name group_data;
           g_company_name := gc_company_name group_data;
           g_profit_sharing_percent := Some (gc_profit_sharing_percent group_data);
           g_settlement_cycle := gc_settlement_cycle group_data;
           g_api_key := Some api_key; g_referral_code := None;
           g_trading_status := "paused"; g_status := "active";
           g_master_accounts := map (λ _, None) (gc_master_accounts group_data);
           g_total_members := 0; g_active_members := 0; g_updated_at := now |} in
      let d1 := set_groups (insert_one group_record) d in
      let trade_copier_master_ids :=
        omap add_master_account (gc_master_accounts group_data) in
      match trade_copier_master_ids with
      | [] => (StatusTrue "Group created successfully" group_record, d1)
      | _ :: _ =>
          let master_accounts :=
            assign_master_ids trade_copier_master_ids
              (g_master_accounts group_record) in
          (StatusTrue "Group created successfully"
             (set_master_accounts master_accounts now group_record),
           set_groups (update_one (by_group_id uuid)
                         (set_master_accounts master_accounts now)) d1)
      end
  end.

(** *** api/groups.py: the remaining handlers *)

(** The route [PATCH /members/{member_id}/approve]: the dependency
    [verify_admin_or_manager] runs first, then the body [approve_member]. *)
Definition approve_member_route (member_id current_user_id : string) (now : Z)
    (d : db) : http * db :=
  match verify_admin_or_manager current_user_id d with
  | Refused status_code detail => (HTTPException status_code detail, d)
  | Resolved current_user => approve_member member_id (u_oid current_user) now d
  end.

Definition set_trading_status (status : string) (now : Z) (g : group) : group :=
  {| g_oid := g_oid g; g_group_id := g_group_id g; g_group_name := g_group_name g;
     g_company_name := g_company_name g;
     g_profit_sharing_percent := g_profit_sharing_percent g;
     g_settlement_cycle := g_settlement_cycle g; g_api_key := g_api_key g;
     g_referral_code := g_referral_code g; g_trading_status := status;
     g_status := g_status g; g_master_accounts := g_master_accounts g;
     g_total_members := g_total_members g; g_active_members := g_active_members g;
     g_updated_at := now |}.



(** [leave_current_group]: only the user document is written. *)
Definition leave_current_group (current_user_id : string) (now : Z) (d : db)
    : http * db :=
  match find_one (by_oid_user current_user_id) (users d) with
  | None => (HTTPException 400 "You are not currently in any group", d)
  | Some user =>
      match u_group_id user with
      | Some group_id =>
          if bool_decide (group_id ≠ "") then
            (Response {| success := true; message := "Successfully left the group";
                         data := [("left_at", Realtime.Isoformat now)] |},
             set_users (update_one (by_oid_user current_user_id) (unset_group now)) d)
          else (HTTPException 400 "You are not currently in any group", d)
      | None => (HTTPException 400 "You are not currently in any group", d)
      end
  end.

(** [leave_group]: the first member record that carries the caller's id
    string and the group id, of whatever status, is marked left and its
    trading account inactive. *)
Definition leave_group (group_id current_user_id : string) (now : Z) (d : db)
    : http * db :=
  match find_one (λ m, bool_decide (m_user_id m = UserId current_user_id)
                       && bool_decide (m_group_id m = group_id)) (members d) with
  | None => (HTTPException 404 "Not a member of this group", d)
  | Some member =>
      let d1 := set_members (update_one (by_oid_member (m_oid member))
                               (set_left now)) d in
      let d2 :=
        match m_account_id member with
        | Some account_id =>
            if bool_decide (account_id ≠ "") then
              set_trading_accounts
                (update_one (by_oid_account account_id)
                   (set_account_status "inactive" now)) d1
            else d1
        | None => d1
        end in
      (Response {| success := true; message := "Successfully left the group";
                   data := [] |}, d2)
  end.

(** *** api/settlements.py *)

(** The route [PUT /settlements/{settlement_id}/approve]: admin only; a
    service result with [status False] is raised as HTTP 400. *)
Definition approve_settlement_route (settlement_id : string)
    (approval_data : SettlementApproval) (current_user_id : string) (now : Z)
    (d : db) : http * db :=
  match get_user_by_id current_user_id d with
  | None => (HTTPException 404 "User not found", d)
  | Some user =>
      if negb (bool_decide (u_role user = "admin")) then
        (HTTPException 403 "Admin access required", d)
      else
        match approve_settlement settlement_id approval_data current_user_id now d with
        | (StatusTrue message _, d') =>
            (Response {| success := true; message := message; data := [] |}, d')
        | (StatusFalse message, d') => (HTTPException 400 message, d')
        | (KeyError key, d') => (HTTPException 500 key, d')
        end
  end.

(** The two queries of [update_group_member_count]. *)
Definition counts_as_total (group_id : string) (m : member) : bool :=
  bool_decide (m_group_id m = group_id) && negb (bool_decide (m_status m = "deleted")).

Definition counts_as_active (group_id : string) (m : member) : bool :=
  bool_decide (m_group_id m = group_id) && bool_decide (m_status m = "active").

End Backend.

(* ===================================================================== *)
(** ** Concrete states                                                    *)
(* ===================================================================== *)

Module Scenario.
Import Realtime.

(** One user with one open browser tab: queue 1 registered for "u1". *)
Definition one_tab : RealtimeService * heap := sse_connect "u1" "user" 1 init ∅.

Definition ping : message := Message "group_joined" [("message", Str "hello")] 0.

Import Backend.

(** Two groups as [GroupService.create_group] leaves them: trading paused
    from the start, no member counted yet. *)
Definition group_A : group :=
  {| g_oid := "a1"; g_group_id := Some "A"; g_group_name := "Alpha";
     g_company_name := "Acme"; g_profit_sharing_percent := Some 80%float;
     g_settlement_cycle := "monthly"; g_api_key := Some "KEY_A";
     g_referral_code := Some "REF_A"; g_trading_status := "paused";
     g_status := "active"; g_master_accounts := [Some "M1"];
     g_total_members := 0; g_active_members := 0; g_updated_at := 0 |}.

Definition group_B : group :=
  {| g_oid := "b1"; g_group_id := Some "B"; g_group_name := "Beta";
     g_company_name := "Bolt"; g_profit_sharing_percent := Some 50%float;
     g_settlement_cycle := "weekly"; g_api_key := Some "KEY_B";
     g_referral_code := Some "REF_B"; g_trading_status := "paused";
     g_status := "active"; g_master_accounts := [Some "M2"];
     g_total_members := 0; g_active_members := 0; g_updated_at := 0 |}.

Definition a_settlement (settlement_id group_id status : string)
    (approved_by : option string) (auto_paused : bool) : settlement :=
  {| s_settlement_id := settlement_id; s_group_id := group_id;
     s_period_from := 100; s_period_to := 200;
     s_total_profit := 15000%float; s_profit_share_percent := 80%float;
     s_amount_due := 12000%float; s_amount_paid := 12000%float;
     s_payment_method := "bank"; s_payment_reference := "UTR1";
     s_payment_proof_file := None; s_status := status;
     s_submitted_by := "manager1"; s_approved_by := approved_by;
     s_approved_at := option_map (λ _, 300%Z) approved_by; s_remarks := None;
     s_auto_paused := auto_paused; s_submitted_at := 250;
     s_created_at := 250; s_updated_at := 250 |}.

Definition empty_db : db :=
  {| users := []; groups := [group_A; group_B]; members := [];
     trading_accounts := []; settlements := [] |}.

(** A is paused since its creation and has a pending settlement that did
    not pause it. *)
Definition db_pending_not_auto_paused : db :=
  set_settlements (λ _, [a_settlement "s1" "A" "pending" None false]) empty_db.

(** B is paused and has a pending settlement marked as having paused it. *)
Definition db_pending_auto_paused : db :=
  set_settlements (λ _, [a_settlement "s2" "B" "pending" None true]) empty_db.

(** A settlement already approved by admin1. *)
Definition db_approved : db :=
  set_settlements (λ _, [a_settlement "s1" "A" "approved" (Some "admin1") false])
    empty_db.

Definition approve : SettlementApproval :=
  {| sa_admin_otp := "123456"; sa_status := "approved"; sa_remarks := None |}.

Definition reject : SettlementApproval :=
  {| sa_admin_otp := "123456"; sa_status := "rejected"; sa_remarks := Some "no" |}.

Definition submission : SettlementCreate :=
  {| sc_group_id := "A"; sc_period_from := 100; sc_period_to := 200;
     sc_payment_method := "bank"; sc_payment_reference := "UTR1";
     sc_amount_paid := 12000%float; sc_payment_proof_file := None |}.

Definition a_user (oid : string) (ib_status : string) (group_id : option string)
    : user :=
  {| u_oid := oid; u_user_id := None; u_name := Some "Uma"; u_role := "user";
     u_ib_status := Some ib_status; u_group_id := group_id;
     u_group_join_date := option_map (λ _, 50%Z) group_id;
     u_referral_code_used := None; u_updated_at := 50 |}.

Definition a_member (oid user_id group_id status : string)
    (account_id : option string) : member :=
  {| m_oid := oid; m_member_id := None; m_user_id := UserId user_id;
     m_group_id := group_id; m_account_id := account_id; m_status := status;
     m_opening_balance := 0%float; m_joined_at := Some 60%Z;
     m_approved_at := None; m_approved_by := None; m_left_at := None;
     m_slave_account_id := None; m_master_account_id := None;
     m_added_by := None; m_updated_at := None |}.

Definition an_account (oid user_id group_id status : string) : trading_account :=
  {| a_oid := oid; a_user_id := UserId user_id; a_group_id := Some group_id;
     a_account_number := "1001"; a_status := status; a_updated_at := 60 |}.

(** User u1 asked to join group A ("A" is its id in member records); the
    membership m1 and its account acc1 await approval. *)
Definition db_pending_member : db :=
  {| users := [a_user "u1" "approved" None];
     groups := [group_A; group_B];
     members := [a_member "m1" "u1" "A" "pending" (Some "acc1")];
     trading_accounts := [an_account "acc1" "u1" "A" "pending"];
     settlements := [] |}.

(** User u1 is an active member of group A (its [_id] "a1" is the group
    id in the user, member and account documents) with an active trading
    account; the user's IB change is pending again. *)
Definition db_member_of_A : db :=
  {| users := [a_user "u1" "pending" (Some "a1")];
     groups := [group_A; group_B];
     members := [a_member "m1" "u1" "a1" "active" (Some "acc1")];
     trading_accounts := [an_account "acc1" "u1" "a1" "active"];
     settlements := [] |}.

(** User u1, IB approved, in no group. *)
Definition db_approved_user : db :=
  {| users := [a_user "u1" "approved" None];
     groups := [group_A; group_B];
     members := []; trading_accounts := []; settlements := [] |}.

Definition account_details (group_id : string) : MemberCreate :=
  {| mc_user_id := "u1"; mc_group_id := group_id; mc_broker := "IC Markets";
     mc_server := "ICMarkets-Demo"; mc_account_no := "1001";
     mc_password := "secret"; mc_opening_balance := 1000%float |}.

Definition join_request : JoinGroupRequest :=
  {| jr_referral_code := ""; jr_account_number := "1001" |}.

(** The interpreter's two builtins on ASCII text, which is all the
    states below contain: a digit is one of "0" to "9" and every
    character is one code point. *)
Definition is_digit (c : ascii) : bool :=
  let n := nat_of_ascii c in (48 <=? n)%nat && (n <=? 57)%nat.

Definition on_ascii : builtins :=
  {| str_isdigit := λ s, negb (bool_decide (s = ""))
                         && forallb is_digit (list_ascii_of_string s);
     str_len := String.length |}.

(** The same user is added to group A and then to group B. *)
Definition two_additions : list join_op :=
  [AddMemberToGroup (account_details "A") "admin1" "mem-1" "o1" None 10;
   AddMemberToGroup (account_details "B") "admin1" "mem-2" "o2" None 20].

(** An office: one admin, whose IB change is approved, and the two
    groups, all under ids the store could have assigned. *)
Definition oid_admin : string := "65a1f0c2b3d4e5f6a7b8c901".
Definition oid_A : string := "65a1f0c2b3d4e5f6a7b8c9a1".
Definition oid_B : string := "65a1f0c2b3d4e5f6a7b8c9b1".
Definition oid_acc1 : string := "65a1f0c2b3d4e5f6a7b8c9c1".
Definition oid_acc2 : string := "65a1f0c2b3d4e5f6a7b8c9c2".
Definition oid_m1 : string := "65a1f0c2b3d4e5f6a7b8c9d1".
Definition oid_m2 : string := "65a1f0c2b3d4e5f6a7b8c9d2".
Definition oid_m3 : string := "65a1f0c2b3d4e5f6a7b8c9d3".

Definition an_admin : user :=
  {| u_oid := oid_admin; u_user_id := None; u_name := Some "Ada";
     u_role := "admin"; u_ib_status := Some "approved"; u_group_id := None;
     u_group_join_date := None; u_referral_code_used := None;
     u_updated_at := 0 |}.

Definition stored_as (oid : string) (g : group) : group :=
  {| g_oid := oid; g_group_id := g_group_id g; g_group_name := g_group_name g;
     g_company_name := g_company_name g;
     g_profit_sharing_percent := g_profit_sharing_percent g;
     g_settlement_cycle := g_settlement_cycle g; g_api_key := g_api_key g;
     g_referral_code := g_referral_code g; g_trading_status := g_trading_status g;
     g_status := g_status g; g_master_accounts := g_master_accounts g;
     g_total_members := g_total_members g; g_active_members := g_active_members g;
     g_updated_at := g_updated_at g |}.

Definition db_office : db :=
  {| users := [an_admin];
     groups := [stored_as oid_A group_A; stored_as oid_B group_B];
     members := []; trading_accounts := []; settlements := [] |}.








(** The admin has joined group A directly: the pending membership and its
    account, as [join_group] stores them. *)
Definition db_direct_join : db :=
  snd (join_group oid_A join_request oid_admin oid_acc1 oid_m1 10 db_office).

(** The member record of [db_direct_join]. *)
Definition direct_member : member :=
  {| m_oid := oid_m1; m_member_id := None; m_user_id := UserDoc an_admin;
     m_group_id := oid_A; m_account_id := Some oid_acc1; m_status := "pending";
     m_opening_balance := 0%float; m_joined_at := Some 10%Z;
     m_approved_at := None; m_approved_by := None; m_left_at := None;
     m_slave_account_id := None; m_master_account_id := None;
     m_added_by := None; m_updated_at := None |}.

Definition halve_percentage : group_update :=
  {| up_group_name := None; up_company_name := None;
     up_profit_sharing_percent := Some 40%float; up_settlement_cycle := None;
     up_trading_status := None; up_status := None; up_api_key := None;
     up_total_members := None; up_active_members := None |}.

(** An admin with one tab (queue 7) next to the user of [one_tab]. *)
Definition with_admin : RealtimeService :=
  add_connection "adm" "admin" 7 (one_tab.1).

(** Staff and a plain user; no member record yet. *)
Definition a_staff (oid role : string) : user :=
  {| u_oid := oid; u_user_id := None; u_name := Some "Sam"; u_role := role;
     u_ib_status := None; u_group_id := None; u_group_join_date := None;
     u_referral_code_used := None; u_updated_at := 0 |}.

Definition db_with_staff : db :=
  {| users := [a_staff "admin1" "admin"; a_staff "manager1" "group_manager";
               a_user "u1" "approved" None];
     groups := [group_A; group_B];
     members := []; trading_accounts := [];
     settlements := [a_settlement "s1" "A" "pending" None false] |}.

Definition two_masters : GroupCreate :=
  {| gc_group_name := "Gamma"; gc_company_name := "Gear";
     gc_profit_sharing_percent := 25%float; gc_settlement_cycle := "daily";
     gc_master_accounts :=
       [{| ma_account_no := "5001"; ma_broker := "FXPRO"; ma_server := "FxPro-Live" |};
        {| ma_account_no := "5002"; ma_broker := "FXPRO"; ma_server := "FxPro-Live" |}] |}.

(** The trade copier refuses account 5001 and accepts every other one. *)
Definition copier_refuses_5001 (account : MasterAccount) : option string :=
  if bool_decide (ma_account_no account = "5001") then None
  else Some ("tc-" +:+ ma_account_no account).

(** User u1 has been added to group A by [add_member_to_group]. *)
Definition db_member_added : db :=
  snd (add_member_to_group on_ascii (account_details "A") "admin1" "mem-1" "o1"
         None 10 db_approved_user).

(** User u1 points at group A (by its [_id]) and has an active member
    record there; the IB status is approved. *)
Definition db_member_of_A_approved : db :=
  {| users := [a_user "u1" "approved" (Some "a1")];
     groups := [group_A; group_B];
     members := [a_member "m1" "u1" "a1" "active" (Some "acc1")];
     trading_accounts := [an_account "acc1" "u1" "a1" "active"];
     settlements := [] |}.

End Scenario.

(* ===================================================================== *)
(** ** Properties of the notification hub                                 *)
(* ===================================================================== *)

Section RealtimeProperties.
Import Realtime.
Implicit Types (d : gmap string (gset positive)) (h : heap)
               (self : RealtimeService) (q : positive) (qs : gset positive).

Lemma dict_add_lookup user_id q d :
  dict_add user_id q d !! user_id = Some (default ∅ (d !! user_id) ∪ {[q]}).
Proof.
  unfold dict_add. destruct (d !! user_id) as [s|] eqn:E.
  - rewrite lookup_alter_eq, E. done.
  - rewrite lookup_alter_eq, lookup_insert_eq. done.
Qed.

Lemma dict_add_lookup_ne user_id uid q d :
  user_id ≠ uid → dict_add user_id q d !! uid = d !! uid.
Proof.
  intros Hne. unfold dict_add. rewrite lookup_alter_ne by done.
  destruct (d !! user_id); [done|]. by rewrite lookup_insert_ne.
Qed.

Lemma dict_discard_lookup_ne user_id uid q d :
  user_id ≠ uid → dict_discard user_id q d !! uid = d !! uid.
Proof.
  intros Hne. unfold dict_discard.
  destruct (alter _ user_id d !! user_id) as [s|] eqn:E.
  - case_decide.
    + rewrite lookup_delete_ne by done. by rewrite lookup_alter_ne.
    + by rewrite lookup_alter_ne.
  - by rewrite lookup_alter_ne.
Qed.

Lemma dict_discard_lookup user_id q d :
  dict_discard user_id q d !! user_id =
    match d !! user_id with
    | Some s => if decide (s ∖ {[q]} = ∅) then None else Some (s ∖ {[q]})
    | None => None
    end.
Proof.
  unfold dict_discard. rewrite lookup_alter_eq.
  destruct (d !! user_id) as [s|] eqn:E; simpl.
  - case_decide.
    + apply lookup_delete_eq.
    + by rewrite lookup_alter_eq, E.
  - by rewrite lookup_alter_eq, E.
Qed.

(** Adding a connection and discarding it again restores a dictionary in
    which the user had no empty entry and did not yet hold the queue. *)
Lemma dict_discard_add user_id q d :
  d !! user_id ≠ Some ∅ →
  q ∉ default ∅ (d !! user_id) →
  dict_discard user_id q (dict_add user_id q d) = d.
Proof.
  intros Hne Hq. apply map_eq. intros uid.
  destruct (decide (user_id = uid)) as [<-|Hu].
  - rewrite dict_discard_lookup, dict_add_lookup.
    destruct (d !! user_id) as [s|] eqn:E; simpl in *.
    + assert ((s ∪ {[q]}) ∖ {[q]} = s) as ->.
      { apply set_eq. intros x.
        rewrite elem_of_difference, elem_of_union, elem_of_singleton.
        split; [intros [[Hx|Hx] Hxq]; done | intros Hx].
        split; [by left | by intros ->]. }
      case_decide; [congruence | done].
    + case_decide as Hd; [done|]. exfalso. apply Hd.
      apply set_eq. intros x.
      rewrite elem_of_difference, elem_of_union, elem_of_singleton.
      split; [intros [[[]%not_elem_of_empty|Hx] Hxq]; done
             | intros []%not_elem_of_empty].
  - rewrite dict_discard_lookup_ne, dict_add_lookup_ne; done.
Qed.

Lemma dict_add_no_empty user_id q d :
  no_empty_entry d → no_empty_entry (dict_add user_id q d).
Proof.
  intros Hd uid. destruct (decide (user_id = uid)) as [<-|Hu].
  - rewrite dict_add_lookup. intros [= Heq]. set_solver.
  - rewrite dict_add_lookup_ne by done. apply Hd.
Qed.

Lemma dict_discard_no_empty user_id q d :
  no_empty_entry d → no_empty_entry (dict_discard user_id q d).
Proof.
  intros Hd uid. destruct (decide (user_id = uid)) as [<-|Hu].
  - rewrite dict_discard_lookup. destruct (d !! user_id); [|done].
    case_decide; congruence.
  - rewrite dict_discard_lookup_ne by done. apply Hd.
Qed.

(** The registry invariant: it holds initially and both registry
    operations keep it, so it holds in every registry they produce. *)
Lemma registry_wf_init : registry_wf init.
Proof. repeat split; intros uid; simpl; by rewrite lookup_empty. Qed.

Lemma registry_wf_add user_id user_role q self :
  registry_wf self → registry_wf (add_connection user_id user_role q self).
Proof.
  intros (Ha & Hu & Hm). unfold add_connection.
  repeat case_decide; repeat split; simpl; auto using dict_add_no_empty.
Qed.

Lemma registry_wf_remove user_id user_role q self :
  registry_wf self → registry_wf (remove_connection user_id user_role q self).
Proof.
  intros (Ha & Hu & Hm). unfold remove_connection.
  repeat case_match; repeat split; simpl; auto using dict_discard_no_empty.
Qed.

Lemma registry_wf_connections_of user_role self :
  registry_wf self → no_empty_entry (connections_of user_role self).
Proof.
  intros (Ha & Hu & Hm). unfold connections_of. repeat case_decide; done.
Qed.

(** *** Queues under [put] *)

Lemma qitems_put item q q' h :
  qitems (put item q h) q' =
    if decide (q = q') then qitems h q ++ [item] else qitems h q'.
Proof.
  unfold put, qitems at 1. case_decide as Hq.
  - subst. by rewrite lookup_insert_eq.
  - by rewrite lookup_insert_ne.
Qed.

Lemma qitems_foldr_put item (l : list positive) h q :
  NoDup l →
  qitems (foldr (put item) h l) q =
    if decide (q ∈ l) then qitems h q ++ [item] else qitems h q.
Proof.
  induction 1 as [|x l Hx Hl IH]; cbn [foldr].
  - rewrite decide_False; [done | apply not_elem_of_nil].
  - rewrite qitems_put. destruct (decide (x = q)) as [->|Hxq].
    + rewrite IH. rewrite decide_False by done.
      rewrite decide_True by apply list_elem_of_here. done.
    + rewrite IH. destruct (decide (q ∈ l)) as [Hin|Hin].
      * rewrite decide_True by (by apply list_elem_of_further). done.
      * rewrite decide_False; [done|].
        intros [?|?]%elem_of_cons; [congruence | done].
Qed.

Lemma qitems_put_all item qs h q :
  qitems (put_all item qs h) q =
    if decide (q ∈ qs) then qitems h q ++ [item] else qitems h q.
Proof.
  unfold put_all. rewrite qitems_foldr_put by apply NoDup_elements.
  destruct (decide (q ∈ qs)) as [Hin|Hin].
  - rewrite decide_True; [done|]. by apply elem_of_elements.
  - rewrite decide_False; [done|]. by rewrite elem_of_elements.
Qed.



(** Every registry the service goes through satisfies the invariant, and so
    has no empty entry in the dictionary of any role. *)
Lemma reachable_wf self : reachable self → registry_wf self.
Proof.
  induction 1; auto using registry_wf_init, registry_wf_add, registry_wf_remove.
Qed.

(** C10. For a registry in which the subscriber has no empty entry under
    the role (the invariant [registry_wf] of every registry that [init],
    [add_connection] and [remove_connection] produce) and a queue the
    subscriber does not hold yet, [add_connection] followed by
    [remove_connection] with the same user id, role and queue gives back
    exactly the registry it started from; in particular a subscriber that
    had no entry has none afterwards: the emptied set is deleted, not left
    behind. *)
Theorem add_then_remove_connection self user_id user_role q :
  connections_of user_role self !! user_id ≠ Some ∅ →
  q ∉ default ∅ (connections_of user_role self !! user_id) →
  remove_connection user_id user_role q
    (add_connection user_id user_role q self) = self
  ∧ (connections_of user_role self !! user_id = None →
     connections_of user_role
       (remove_connection user_id user_role q
          (add_connection user_id user_role q self)) !! user_id = None).
Proof.
  intros Hne Hq.
  assert (remove_connection user_id user_role q
            (add_connection user_id user_role q self) = self) as Heq.
  { unfold connections_of in Hne, Hq.
    unfold remove_connection, add_connection. destruct self as [a u m].
    destruct (decide (user_role = "admin")) as [Ha|Ha]; simpl in *.
    - rewrite (bool_decide_eq_true_2 _ Ha).
      rewrite bool_decide_eq_true_2 by (rewrite dict_add_lookup; eauto).
      simpl. by rewrite dict_discard_add.
    - rewrite (bool_decide_eq_false_2 _ Ha). simpl.
      destruct (decide (user_role = "master")) as [Hm|Hm]; simpl in *.
      + rewrite (bool_decide_eq_true_2 _ Hm).
        rewrite bool_decide_eq_true_2 by (rewrite dict_add_lookup; eauto).
        simpl. by rewrite dict_discard_add.
      + rewrite (bool_decide_eq_false_2 _ Hm). simpl.
        rewrite bool_decide_eq_true_2 by (rewrite dict_add_lookup; eauto).
        simpl. by rewrite dict_discard_add. }
  split; [exact Heq|]. intros Hnone. by rewrite Heq.
Qed.

Lemma add_then_remove_connection_witness :
  remove_connection "u1" "user" 2 (add_connection "u1" "user" 2 (Scenario.one_tab.1))
    = Scenario.one_tab.1.
Proof.
  apply (add_then_remove_connection (Scenario.one_tab.1) "u1" "user" 2).
  - vm_compute. discriminate.
  - vm_compute. intros H. inversion H.
Defined.




End RealtimeProperties.

(* ===================================================================== *)
(** ** Properties of the collection calls                                 *)
(* ===================================================================== *)

Section MongoProperties.
Import Mongo.
Context {D : Type}.
Implicit Types (p q : D → bool) (f : D → D) (c : list D).

Lemma length_update_one p f c : length (update_one p f c) = length c.
Proof. induction c as [|x c IH]; simpl; [done|]. destruct (p x); simpl; congruence. Qed.

Lemma length_update_many p f c : length (update_many p f c) = length c.
Proof. apply length_map. Qed.

(** The first match of [find] is the document [find_one] returns. *)
Lemma head_find p c : head (find p c) = find_one p c.
Proof.
  unfold find, find_one. induction c as [|x c IH]; simpl; [done|].
  destruct (p x); simpl; done.
Qed.

Lemma find_nil_find_one p c : find p c = [] ↔ find_one p c = None.
Proof.
  rewrite <- head_find. destruct (find p c); simpl; split; congruence.
Qed.

(** Reading back after [update_one] with a [$set] that keeps the key. *)
Lemma find_one_update_one p f c :
  (∀ x, p (f x) = p x) →
  find_one p (update_one p f c) = f <$> find_one p c.
Proof.
  intros Hp. unfold find_one. induction c as [|x c IH]; simpl; [done|].
  destruct (p x) eqn:E; simpl.
  - by rewrite Hp, E.
  - by rewrite E.
Qed.

Lemma update_one_none p f c : find_one p c = None → update_one p f c = c.
Proof.
  unfold find_one. induction c as [|x c IH]; simpl; [done|].
  destruct (p x); [done|]. intros H. by rewrite IH.
Qed.

(** Two [$set]s on the same key: the later one wins where they agree on
    what they write. *)
Lemma update_one_twice p f g c :
  (∀ x, p (f x) = p x) → (∀ x, g (f x) = g x) →
  update_one p g (update_one p f c) = update_one p g c.
Proof.
  intros Hp Hg. induction c as [|x c IH]; simpl; [done|].
  destruct (p x) eqn:E; simpl.
  - by rewrite Hp, E, Hg.
  - by rewrite E, IH.
Qed.

(** Counting under a query the [$set] does not affect. *)
Lemma length_find_update_one_same p q f c :
  (∀ x, q (f x) = q x) →
  length (find q (update_one p f c)) = length (find q c).
Proof.
  intros Hq. unfold find. induction c as [|x c IH]; simpl; [done|].
  destruct (p x); simpl.
  - rewrite Hq. destruct (q x); done.
  - destruct (q x); simpl; congruence.
Qed.

(** Counting when the [$set] moves the updated document into the query. *)
Lemma length_find_update_one_enter p q f c x :
  find_one p c = Some x → q x = false → q (f x) = true →
  length (find q (update_one p f c)) = S (length (find q c)).
Proof.
  unfold find, find_one. induction c as [|y c IH]; simpl; [done|].
  destruct (p y) eqn:E; simpl.
  - intros [= ->] Hx Hfx. by rewrite Hx, Hfx.
  - intros Hf Hx Hfx. destruct (q y); simpl; rewrite IH; done.
Qed.

(** Counting when the updated document stays on its side of the query. *)
Lemma length_find_update_one_stay p q f c x :
  find_one p c = Some x → q (f x) = q x →
  length (find q (update_one p f c)) = length (find q c).
Proof.
  unfold find, find_one. induction c as [|y c IH]; simpl; [done|].
  destruct (p y) eqn:E; simpl.
  - intros [= ->] Hx. rewrite Hx. by destruct (q x).
  - intros Hf Hx. destruct (q y); simpl; rewrite IH; done.
Qed.


Lemma find_insert_one q x c :
  find q (insert_one x c) = find q c ++ (if q x then [x] else []).
Proof.
  unfold find, insert_one. induction c as [|y c IH]; simpl.
  - by destruct (q x).
  - rewrite IH. by destruct (q y).
Qed.

Lemma find_one_insert_one q x c y :
  find_one q c = Some y → find_one q (insert_one x c) = Some y.
Proof.
  unfold find_one, insert_one. induction c as [|z c IH]; simpl; [done|].
  destruct (q z); [done | apply IH].
Qed.


End MongoProperties.

(* ===================================================================== *)
(** ** Properties of groups and settlements                               *)
(* ===================================================================== *)

Section SettlementProperties.
Import Mongo Backend.
Implicit Types (d : db) (g : group) (s : settlement).

Lemma by_group_id_apply_group_update group_id u now g :
  by_group_id group_id (apply_group_update u now g) = by_group_id group_id g.
Proof. done. Qed.

Lemma by_settlement_id_set_approval settlement_id a admin now s :
  by_settlement_id settlement_id (set_approval a admin now s)
  = by_settlement_id settlement_id s.
Proof. done. Qed.

(** [update_document] on a group is read back by [get_group_by_id]. *)
Lemma get_group_by_id_update_group_document group_id u now d :
  get_group_by_id group_id (update_group_document group_id u now d)
  = apply_group_update u now <$> get_group_by_id group_id d.
Proof.
  unfold get_group_by_id, update_group_document. simpl.
  apply find_one_update_one. intros x. apply by_group_id_apply_group_update.
Qed.

Lemma settlements_update_group_document group_id u now d :
  settlements (update_group_document group_id u now d) = settlements d.
Proof. done. Qed.

(** No call that writes a group document touches the settlements. *)
Lemma settlements_run_group_op op d : settlements (run_group_op op d) = settlements d.
Proof.
  destruct op; simpl.
  - unfold update_group. destruct (get_group_by_id group_id d); [|done].
    destruct (get_group_by_id group_id (update_group_document _ _ _ _)); done.
  - unfold toggle_trading_status. destruct (get_group_by_id group_id d); done.
  - unfold regenerate_api_key. destruct (get_group_by_id group_id d); done.
  - done.
Qed.

Lemma settlements_run_group_ops ops d :
  settlements (run_group_ops ops d) = settlements d.
Proof.
  unfold run_group_ops. revert d. induction ops as [|op ops IH]; intros d; simpl.
  - done.
  - by rewrite IH, settlements_run_group_op.
Qed.

(** C6. A submission for a group that carries a percentage stores a
    pending settlement whose [profit_share_percent] is the group's
    percentage at that moment and whose [amount_due] is the gross profit
    multiplied by that percentage over 100 (in binary64, in the order the
    code computes it); and after any run of group-writing calls, later
    edits of the percentage included, the settlements collection, and so
    the stored [amount_due] and [profit_share_percent] of the record, are
    what they were. *)
Theorem settlement_snapshot settlement_data submitted_by uuid now d g percent ops :
  get_group_by_id (sc_group_id settlement_data) d = Some g →
  g_profit_sharing_percent g = Some percent →
  ∃ record,
    submit_settlement settlement_data submitted_by uuid now d
      = (StatusTrue "Settlement submitted successfully" record,
         set_settlements (insert_one record) d)
    ∧ s_status record = "pending"
    ∧ s_profit_share_percent record = percent
    ∧ s_amount_due record
      = PrimFloat.mul (s_total_profit record) (PrimFloat.div percent 100%float)
    ∧ settlements (run_group_ops ops (set_settlements (insert_one record) d))
      = settlements d ++ [record].
Proof.
  intros Hg Hp. unfold submit_settlement, calculate_profit_sharing.
  rewrite Hg. simpl. rewrite Hp. eexists. split; [reflexivity|].
  repeat split. by rewrite settlements_run_group_ops.
Qed.

Lemma settlement_snapshot_witness :
  ∃ record,
    submit_settlement Scenario.submission "manager1" "s9" 250 Scenario.empty_db
      = (StatusTrue "Settlement submitted successfully" record,
         set_settlements (insert_one record) Scenario.empty_db)
    ∧ s_status record = "pending"
    ∧ s_profit_share_percent record = 80%float
    ∧ s_amount_due record
      = PrimFloat.mul (s_total_profit record) (PrimFloat.div 80%float 100%float)
    ∧ settlements
        (run_group_ops [UpdateGroup "A" Scenario.halve_percentage "admin1" 260]
           (set_settlements (insert_one record) Scenario.empty_db))
      = settlements Scenario.empty_db ++ [record].
Proof.
  apply (settlement_snapshot Scenario.submission "manager1" "s9" 250
           Scenario.empty_db Scenario.group_A 80%float
           [UpdateGroup "A" Scenario.halve_percentage "admin1" 260]).
  - reflexivity.
  - reflexivity.
Defined.

(** *** Approval *)

(** What [approve_settlement] leaves in the settlements collection. *)
Lemma settlements_approve_settlement settlement_id a admin now d :
  settlements (snd (approve_settlement settlement_id a admin now d))
  = update_one (by_settlement_id settlement_id) (set_approval a admin now)
      (settlements d).
Proof.
  unfold approve_settlement. case_bool_decide; simpl; [|done].
  unfold resume_group_if_paused. destruct (find _ _); [done|].
  unfold toggle_trading_status. destruct (get_group_by_id _ _); done.
Qed.

(** What an Approve leaves in the groups collection when the settlement
    and its group exist. *)
Lemma groups_approve_settlement settlement_id a admin now d s g :
  find_one (by_settlement_id settlement_id) (settlements d) = Some s →
  get_group_by_id (s_group_id s) d = Some g →
  sa_status a = "approved" →
  get_group_by_id (s_group_id s)
    (snd (approve_settlement settlement_id a admin now d))
  = Some (apply_group_update
            {| up_group_name := None; up_company_name := None;
               up_profit_sharing_percent := None; up_settlement_cycle := None;
               up_trading_status := Some "active"; up_status := None;
               up_api_key := None; up_total_members := None;
               up_active_members := None |} now g).
Proof.
  intros Hs Hg Ha. unfold approve_settlement.
  rewrite bool_decide_eq_true_2 by done. simpl.
  unfold resume_group_if_paused.
  pose proof (head_find (by_settlement_id settlement_id)
    (update_one (by_settlement_id settlement_id) (set_approval a admin now)
       (settlements d))) as Hh.
  rewrite find_one_update_one in Hh by done. rewrite Hs in Hh. simpl in Hh.
  simpl. destruct (find _ _) as [|s' rest]; simpl in Hh; [done|].
  injection Hh as ->. simpl.
  unfold toggle_trading_status.
  change (get_group_by_id (s_group_id s) (set_settlements _ d))
    with (get_group_by_id (s_group_id s) d).
  rewrite Hg. simpl.
  rewrite get_group_by_id_update_group_document.
  change (get_group_by_id (s_group_id s) (set_settlements _ d))
    with (get_group_by_id (s_group_id s) d).
  by rewrite Hg.
Qed.

(** Approving an existing settlement that is marked auto-paused, for an
    existing group, reports success, leaves the settlement approved and
    the group's [trading_status] "active"; a call whose status is not
    "approved" (a rejection) leaves every group document as it was. *)
Lemma approve_settlement_resumes settlement_id a admin now d s g :
  find_one (by_settlement_id settlement_id) (settlements d) = Some s →
  get_group_by_id (s_group_id s) d = Some g →
  (s_auto_paused s = true → sa_status a = "approved" →
     fst (approve_settlement settlement_id a admin now d)
       = StatusTrue "Settlement approved successfully" ()
     ∧ s_status <$> find_one (by_settlement_id settlement_id)
         (settlements (snd (approve_settlement settlement_id a admin now d)))
       = Some "approved"
     ∧ g_trading_status <$> get_group_by_id (s_group_id s)
         (snd (approve_settlement settlement_id a admin now d))
       = Some "active")
  ∧ (sa_status a ≠ "approved" →
     groups (snd (approve_settlement settlement_id a admin now d)) = groups d).
Proof.
  intros Hs Hg. split.
  - intros _ Ha. split; [|split].
    + unfold approve_settlement. by rewrite bool_decide_eq_true_2.
    + rewrite settlements_approve_settlement, find_one_update_one by done.
      rewrite Hs. simpl. by rewrite Ha.
    + by rewrite (groups_approve_settlement _ _ _ _ _ s g).
  - intros Ha. unfold approve_settlement. by rewrite bool_decide_eq_false_2.
Qed.

Example approve_settlement_resumes_auto_paused :
  g_trading_status <$> get_group_by_id "B"
    (snd (approve_settlement "s2" Scenario.approve "admin1" 400
            Scenario.db_pending_auto_paused))
  = Some "active".
Proof. reflexivity. Qed.

(** C1 against the code. [resume_group_if_paused] is documented as
    "resume group trading if it was auto-paused" but never reads
    [auto_paused]: group A has been paused since its creation, its pending
    settlement did not pause it ([auto_paused] is false), and approving
    that settlement switches the group to "active" all the same. *)
Theorem approve_resumes_without_auto_pause :
  s_auto_paused <$> find_one (by_settlement_id "s1")
      (settlements Scenario.db_pending_not_auto_paused) = Some false
  ∧ g_trading_status <$> get_group_by_id "A" Scenario.db_pending_not_auto_paused
    = Some "paused"
  ∧ g_trading_status <$> get_group_by_id "A"
      (snd (approve_settlement "s1" Scenario.approve "admin1" 400
              Scenario.db_pending_not_auto_paused))
    = Some "active".
Proof. repeat split. Qed.

(** C4 (as the code has it). There is no terminal state: on any existing
    settlement, approved and rejected ones included, the call is carried
    out again; it overwrites status, approved_by, approved_at and remarks
    with its own values, leaves the group, period, amounts, payment and
    submission keys as they were, and a repeated Approve reports
    success. *)
Theorem approve_settlement_overwrites settlement_id a admin now d s :
  find_one (by_settlement_id settlement_id) (settlements d) = Some s →
  ∃ s',
    find_one (by_settlement_id settlement_id)
      (settlements (snd (approve_settlement settlement_id a admin now d)))
    = Some s'
    ∧ s_status s' = sa_status a
    ∧ s_approved_by s' = Some admin
    ∧ s_approved_at s' = Some now
    ∧ s_remarks s' = sa_remarks a
    ∧ (s_group_id s', s_period_from s', s_period_to s')
      = (s_group_id s, s_period_from s, s_period_to s)
    ∧ (s_total_profit s', s_profit_share_percent s', s_amount_due s',
       s_amount_paid s')
      = (s_total_profit s, s_profit_share_percent s, s_amount_due s,
         s_amount_paid s)
    ∧ (s_payment_method s', s_payment_reference s', s_payment_proof_file s',
       s_submitted_by s', s_submitted_at s', s_auto_paused s', s_created_at s')
      = (s_payment_method s, s_payment_reference s, s_payment_proof_file s,
         s_submitted_by s, s_submitted_at s, s_auto_paused s, s_created_at s)
    ∧ (sa_status a = "approved" →
       fst (approve_settlement settlement_id a admin now d)
       = StatusTrue "Settlement approved successfully" ()).
Proof.
  intros Hs. exists (set_approval a admin now s).
  rewrite settlements_approve_settlement, find_one_update_one by done.
  rewrite Hs. repeat split.
  intros Ha. unfold approve_settlement. by rewrite bool_decide_eq_true_2.
Qed.

Lemma approve_settlement_overwrites_witness :
  ∃ s',
    find_one (by_settlement_id "s1")
      (settlements (snd (approve_settlement "s1" Scenario.approve "admin2" 400
                           Scenario.db_approved)))
    = Some s'
    ∧ s_status s' = "approved"
    ∧ s_approved_by s' = Some "admin2"
    ∧ s_approved_at s' = Some 400%Z
    ∧ s_remarks s' = None
    ∧ (s_group_id s', s_period_from s', s_period_to s') = ("A", 100%Z, 200%Z)
    ∧ (s_total_profit s', s_profit_share_percent s', s_amount_due s',
       s_amount_paid s')
      = (15000%float, 80%float, 12000%float, 12000%float)
    ∧ (s_payment_method s', s_payment_reference s', s_payment_proof_file s',
       s_submitted_by s', s_submitted_at s', s_auto_paused s', s_created_at s')
      = ("bank", "UTR1", None, "manager1", 250%Z, false, 250%Z)
    ∧ (Scenario.approve.(sa_status) = "approved" →
       fst (approve_settlement "s1" Scenario.approve "admin2" 400
              Scenario.db_approved)
       = StatusTrue "Settlement approved successfully" ()).
Proof.
  apply (approve_settlement_overwrites "s1" Scenario.approve "admin2" 400
           Scenario.db_approved
           (Scenario.a_settlement "s1" "A" "approved" (Some "admin1") false)).
  reflexivity.
Defined.

(** C4 fails as stated: a settlement approved by admin1 is rejected
    afterwards by admin2; its status and approver change, and approving it
    once more is answered with success. *)
Lemma approved_settlement_is_rewritten :
  (s_status <$> find_one (by_settlement_id "s1") (settlements Scenario.db_approved),
   s_approved_by <$> find_one (by_settlement_id "s1") (settlements Scenario.db_approved))
  = (Some "approved", Some (Some "admin1"))
  ∧ (let d' := snd (approve_settlement "s1" Scenario.reject "admin2" 400
                      Scenario.db_approved) in
     (s_status <$> find_one (by_settlement_id "s1") (settlements d'),
      s_approved_by <$> find_one (by_settlement_id "s1") (settlements d'))
     = (Some "rejected", Some (Some "admin2")))
  ∧ fst (approve_settlement "s1" Scenario.approve "admin2" 400 Scenario.db_approved)
    = StatusTrue "Settlement approved successfully" ().
Proof. repeat split. Qed.

End SettlementProperties.

(* ===================================================================== *)
(** ** Properties of member approval                                      *)
(* ===================================================================== *)

Section ApprovalProperties.
Import Mongo Backend.
Implicit Types (d : db) (m : member) (a : trading_account).

Lemma approve_member_found member_id approver now d m :
  find_one (by_oid_member member_id) (members d) = Some m →
  approve_member member_id approver now d =
    if bool_decide (m_status m = "active")
       && bool_decide (m_approved_at m = Some now)
       && bool_decide (m_approved_by m = Some approver)
    then (HTTPException 404 "Member not found",
          set_members (update_one (by_oid_member member_id)
                         (set_approved approver now)) d)
    else (approved_response,
          approve_trading_account (Some (set_approved approver now m)) now
            (set_members (update_one (by_oid_member member_id)
                            (set_approved approver now)) d)).
Proof.
  intros Hm. unfold approve_member, approve_modified_count. rewrite Hm.
  destruct (_ && _ && _); simpl; [done|].
  rewrite find_one_update_one by done. rewrite Hm. done.
Qed.

Lemma groups_approve_member member_id approver now d :
  groups (snd (approve_member member_id approver now d)) = groups d
  ∧ users (snd (approve_member member_id approver now d)) = users d
  ∧ settlements (snd (approve_member member_id approver now d)) = settlements d
  ∧ members (snd (approve_member member_id approver now d))
    = update_one (by_oid_member member_id) (set_approved approver now) (members d).
Proof.
  unfold approve_member. destruct (_ =? _)%nat; simpl; [done|].
  unfold approve_trading_account.
  destruct (find_one _ _) as [m|]; [|done].
  destruct (m_account_id m) as [acc|]; [|done]. case_bool_decide; done.
Qed.

(** C8 (as the code has it). Approving a pending member succeeds and makes
    the member active, but writes no group document: the stored
    [total_members] and [active_members] stay as they were.  What
    [update_group_member_count], which the approval does not call, counts
    under the member's group id is after the approval exactly one active
    member more, and the same total, than before it. *)
Theorem approve_member_counts member_id approver now now' d m :
  find_one (by_oid_member member_id) (members d) = Some m →
  m_status m = "pending" →
  let d' := snd (approve_member member_id approver now d) in
  let counted := fst (update_group_member_count (m_group_id m) now' d) in
  let counted' := fst (update_group_member_count (m_group_id m) now' d') in
  fst (approve_member member_id approver now d) = approved_response
  ∧ m_status <$> find_one (by_oid_member member_id) (members d') = Some "active"
  ∧ groups d' = groups d
  ∧ counted' = (counted.1, (counted.2 + 1)%Z).
Proof.
  intros Hm Hst d' counted counted'.
  destruct (groups_approve_member member_id approver now d) as (Hg & _ & _ & Hmem).
  split; [|split; [|split]].
  - rewrite (approve_member_found _ _ _ _ m) by done. rewrite Hst. done.
  - subst d'. rewrite Hmem, find_one_update_one by done. by rewrite Hm.
  - exact Hg.
  - subst counted counted' d'. unfold update_group_member_count. simpl.
    rewrite Hmem. f_equal.
    + f_equal. apply (length_find_update_one_stay _ _ _ _ m); [done|].
      simpl. by rewrite Hst.
    + rewrite (length_find_update_one_enter _ _ _ _ m); [lia|done| |].
      * rewrite Hst. by rewrite andb_false_r.
      * simpl. by rewrite bool_decide_eq_true_2.
Qed.

Lemma approve_member_counts_witness :
  let d := Scenario.db_direct_join in
  let d' := snd (approve_member Scenario.oid_m1 Scenario.oid_admin 70 d) in
  fst (approve_member Scenario.oid_m1 Scenario.oid_admin 70 d) = approved_response
  ∧ m_status <$> find_one (by_oid_member Scenario.oid_m1) (members d')
    = Some "active"
  ∧ groups d' = groups d
  ∧ fst (update_group_member_count Scenario.oid_A 80 d')
    = ((fst (update_group_member_count Scenario.oid_A 80 d)).1,
       ((fst (update_group_member_count Scenario.oid_A 80 d)).2 + 1)%Z).
Proof.
  apply (approve_member_counts Scenario.oid_m1 Scenario.oid_admin 70 80
           Scenario.db_direct_join Scenario.direct_member);
    reflexivity.
Defined.

(** C8 fails as stated: the admin's direct join of group A left a pending
    member; after its approval every group document still says
    [active_members = 0], although one member record of the group is now
    active.  A recount under the member's group id, which is the [_id] of
    the group, would not reach a group document either. *)
Lemma approve_member_leaves_counters :
  let d := Scenario.db_direct_join in
  let d' := snd (approve_member Scenario.oid_m1 Scenario.oid_admin 70 d) in
  map (λ m, (m_oid m, m_group_id m, m_status m)) (members d)
    = [(Scenario.oid_m1, Scenario.oid_A, "pending")]
  ∧ fst (approve_member Scenario.oid_m1 Scenario.oid_admin 70 d)
    = approved_response
  ∧ map (λ m, (m_oid m, m_group_id m, m_status m)) (members d')
    = [(Scenario.oid_m1, Scenario.oid_A, "active")]
  ∧ map (λ g, (g_oid g, g_total_members g, g_active_members g)) (groups d)
    = [(Scenario.oid_A, 0%Z, 0%Z); (Scenario.oid_B, 0%Z, 0%Z)]
  ∧ map (λ g, (g_oid g, g_total_members g, g_active_members g)) (groups d')
    = [(Scenario.oid_A, 0%Z, 0%Z); (Scenario.oid_B, 0%Z, 0%Z)]
  ∧ update_group_member_count Scenario.oid_A 80 d' = ((1%Z, 1%Z), d').
Proof. repeat split. Qed.

(** Everything of a trading account but its [updated_at] stamp. *)
Lemma account_keys_update_one_stamp p status now now' (c : list trading_account) :
  map (λ a, (a_oid a, a_user_id a, a_group_id a, a_account_number a, a_status a))
    (update_one p (set_account_status status now') c)
  = map (λ a, (a_oid a, a_user_id a, a_group_id a, a_account_number a, a_status a))
      (update_one p (set_account_status status now) c).
Proof.
  induction c as [|x c IH]; simpl; [done|].
  destruct (p x); simpl; [done | by rewrite IH].
Qed.

(** C7 (as the code has it). After a successful Approve, a second Approve
    of the same member by another approver or at another time succeeds
    and keeps the member active, the groups, users and settlements and
    every key of every trading account but [updated_at] as the first call
    left them; it is not a no-op: the member's [approved_at] and
    [approved_by] now carry the second call's time and approver. *)
Theorem approve_member_twice member_id approver1 now1 approver2 now2 d m :
  find_one (by_oid_member member_id) (members d) = Some m →
  fst (approve_member member_id approver1 now1 d) = approved_response →
  now2 ≠ now1 ∨ approver2 ≠ approver1 →
  let d1 := snd (approve_member member_id approver1 now1 d) in
  let d2 := snd (approve_member member_id approver2 now2 d1) in
  fst (approve_member member_id approver2 now2 d1) = approved_response
  ∧ find_one (by_oid_member member_id) (members d1)
    = Some (set_approved approver1 now1 m)
  ∧ find_one (by_oid_member member_id) (members d2)
    = Some (set_approved approver2 now2 m)
  ∧ groups d2 = groups d1
  ∧ users d2 = users d1
  ∧ settlements d2 = settlements d1
  ∧ map (λ a, (a_oid a, a_user_id a, a_group_id a, a_account_number a, a_status a))
      (trading_accounts d2)
    = map (λ a, (a_oid a, a_user_id a, a_group_id a, a_account_number a, a_status a))
        (trading_accounts d1).
Proof.
  intros Hm H1 Hne d1 d2.
  assert (find_one (by_oid_member member_id) (members d1)
          = Some (set_approved approver1 now1 m)) as Hm1.
  { subst d1.
    destruct (groups_approve_member member_id approver1 now1 d) as (_ & _ & _ & ->).
    rewrite find_one_update_one by done. by rewrite Hm. }
  assert (approve_member member_id approver2 now2 d1
          = (approved_response,
             approve_trading_account (Some (set_approved approver2 now2 m)) now2
               (set_members (update_one (by_oid_member member_id)
                               (set_approved approver2 now2)) d1))) as H2.
  { rewrite (approve_member_found _ _ _ _ _ Hm1). simpl.
    destruct Hne as [Hn|Ha].
    - rewrite (bool_decide_eq_false_2 (Some now1 = Some now2)) by congruence.
      by rewrite ?andb_false_r, ?andb_false_l.
    - rewrite (bool_decide_eq_false_2 (Some approver1 = Some approver2))
        by congruence.
      by rewrite ?andb_false_r, ?andb_false_l. }
  destruct (groups_approve_member member_id approver2 now2 d1)
    as (Hg & Hu & Hs & Hmem).
  split; [by rewrite H2|]. split; [exact Hm1|]. split.
  { subst d2. rewrite Hmem, find_one_update_one by done. by rewrite Hm1. }
  split; [exact Hg|]. split; [exact Hu|]. split; [exact Hs|].
  subst d2. rewrite H2. simpl.
  assert (d1 = approve_trading_account (Some (set_approved approver1 now1 m)) now1
                 (set_members (update_one (by_oid_member member_id)
                                 (set_approved approver1 now1)) d)) as Hd1.
  { subst d1. rewrite (approve_member_found _ _ _ _ _ Hm) in H1 |- *.
    destruct (_ && _ && _); [discriminate H1 | done]. }
  rewrite Hd1. clear.
  unfold approve_trading_account. simpl.
  destruct (m_account_id m) as [acc|]; [|done].
  case_bool_decide; [|done]. simpl.
  rewrite update_one_twice by done. apply account_keys_update_one_stamp.
Qed.

Lemma approve_member_twice_witness :
  fst (approve_member "m1" "admin2" 90
         (snd (approve_member "m1" "admin1" 70 Scenario.db_pending_member)))
  = approved_response.
Proof.
  apply (approve_member_twice "m1" "admin1" 70 "admin2" 90
           Scenario.db_pending_member
           (Scenario.a_member "m1" "u1" "A" "pending" (Some "acc1"))).
  - reflexivity.
  - reflexivity.
  - left. discriminate.
Defined.

(** C7 fails as stated: the second Approve of member m1 succeeds but
    changes the record ([approved_at] moves from 70 to 90, and the
    account's [updated_at] with it); and when the second call carries the
    very stamp and approver of the first, nothing is modified and the call
    is answered 404 "Member not found". *)
Lemma second_approve_is_not_a_no_op :
  let d1 := snd (approve_member "m1" "admin1" 70 Scenario.db_pending_member) in
  let d2 := snd (approve_member "m1" "admin1" 90 d1) in
  fst (approve_member "m1" "admin1" 90 d1) = approved_response
  ∧ m_approved_at <$> find_one (by_oid_member "m1") (members d1) = Some (Some 70%Z)
  ∧ m_approved_at <$> find_one (by_oid_member "m1") (members d2) = Some (Some 90%Z)
  ∧ members d2 ≠ members d1
  ∧ map a_updated_at (trading_accounts d2) ≠ map a_updated_at (trading_accounts d1)
  ∧ fst (approve_member "m1" "admin1" 70 d1)
    = HTTPException 404 "Member not found".
Proof. repeat split; discriminate. Qed.

End ApprovalProperties.

(* ===================================================================== *)
(** ** Properties of joining a group                                      *)
(* ===================================================================== *)

Section JoinProperties.
Import Mongo Backend.
Implicit Types (d : db) (m : member) (u : user) (w : world)
               (rt : Realtime.RealtimeService).

(** *** The graceful leave *)

Lemma users_leave_previous_group existing current_user_id now d :
  users (leave_previous_group existing current_user_id now d)
  = update_one (by_oid_user current_user_id) (unset_group now) (users d).
Proof.
  unfold leave_previous_group. destruct (u_group_id existing); [|done].
  case_bool_decide; done.
Qed.

Lemma groups_leave_previous_group existing current_user_id now d :
  groups (leave_previous_group existing current_user_id now d) = groups d.
Proof.
  unfold leave_previous_group. destruct (u_group_id existing); [|done].
  case_bool_decide; done.
Qed.

Lemma update_many_never {D} (f : D → D) (c : list D) :
  update_many (λ _, false) f c = c.
Proof. unfold update_many. induction c; simpl; congruence. Qed.

(** The member records after a graceful leave: some of them marked left. *)
Lemma members_leave_previous_group existing current_user_id now d :
  ∃ query, members (leave_previous_group existing current_user_id now d)
           = update_many query (set_left now) (members d).
Proof.
  unfold leave_previous_group. destruct (u_group_id existing) as [prev|].
  - case_bool_decide; simpl.
    + eexists. reflexivity.
    + exists (λ _, false). by rewrite update_many_never.
  - exists (λ _, false). simpl. by rewrite update_many_never.
Qed.

Lemma find_one_weaken {D} (p r : D → bool) (c : list D) x :
  find_one (λ y, p y && r y) c = Some x → is_Some (find_one p c).
Proof.
  unfold find_one. induction c as [|y c IH]; simpl; [done|].
  destruct (p y); simpl; [eauto|]. apply IH.
Qed.

(** The user document read after the optional graceful leave. *)
Lemma user_after_leave current_user_id now d :
  let d1 := match find_existing_membership current_user_id d with
            | Some existing => leave_previous_group existing current_user_id now d
            | None => d
            end in
  find_one (by_oid_user current_user_id) (users d1)
  = match find_existing_membership current_user_id d with
    | Some _ => unset_group now <$> find_one (by_oid_user current_user_id) (users d)
    | None => find_one (by_oid_user current_user_id) (users d)
    end.
Proof.
  simpl. destruct (find_existing_membership current_user_id d); [|done].
  rewrite users_leave_previous_group. by apply find_one_update_one.
Qed.

(** A user that is found without the group condition but not with it has
    no group. *)
Lemma no_existing_membership current_user_id d u :
  find_existing_membership current_user_id d = None →
  find_one (by_oid_user current_user_id) (users d) = Some u →
  u_group_id u = None.
Proof.
  unfold find_existing_membership, find_one.
  induction (users d) as [|y c IH]; simpl; [done|].
  destruct (by_oid_user current_user_id y); simpl.
  - case_bool_decide as Hg; [done|]. intros _ [= <-].
    destruct (u_group_id y); [|done]. exfalso. apply Hg. eauto.
  - apply IH.
Qed.

(** *** Failing and succeeding joins *)

(** A 404 answer after the group was resolved means the user document is
    missing, and then no graceful leave has run. *)
Lemma user_missing_no_leave current_user_id now d :
  find_one (by_oid_user current_user_id)
    (users match find_existing_membership current_user_id d with
           | Some existing => leave_previous_group existing current_user_id now d
           | None => d
           end) = None →
  match find_existing_membership current_user_id d with
  | Some existing => leave_previous_group existing current_user_id now d
  | None => d
  end = d.
Proof.
  pose proof (user_after_leave current_user_id now d) as Hu. simpl in Hu.
  rewrite Hu. clear Hu.
  destruct (find_existing_membership current_user_id d) as [existing|] eqn:E;
    [|done].
  apply find_one_weaken in E as [u Hu]. rewrite Hu. done.
Qed.

(** C3 (as the code does by design). A join whose referral code or API key
    resolves to no group fails with 404 and leaves the database and every
    queue exactly as they were, prior membership, trading account and the
    user's group pointer included; so does every join answered 404. *)
Theorem unresolved_group_changes_nothing code current_user_id now rt w :
  (find_one (λ g, bool_decide (g_referral_code g = Some code)
                  || bool_decide (g_api_key g = Some code)) (groups w.1) = None →
     join_group_by_referral code current_user_id now rt w
     = (HTTPException 404 "Invalid referral code or API key", w))
  ∧ (find_one (λ g, bool_decide (g_api_key g = Some code)) (groups w.1) = None →
     join_group_by_api_key code current_user_id now rt w
     = (HTTPException 404 "Invalid API key", w))
  ∧ (∀ detail,
       fst (join_group_by_referral code current_user_id now rt w)
         = HTTPException 404 detail →
       snd (join_group_by_referral code current_user_id now rt w) = w)
  ∧ (∀ detail,
       fst (join_group_by_api_key code current_user_id now rt w)
         = HTTPException 404 detail →
       snd (join_group_by_api_key code current_user_id now rt w) = w).
Proof.
  destruct w as [d h]. simpl. split; [|split; [|split]].
  - intros Hg. unfold join_group_by_referral. by rewrite Hg.
  - intros Hg. unfold join_group_by_api_key. by rewrite Hg.
  - intros detail. unfold join_group_by_referral.
    destruct (find_one _ (groups d)) as [group|]; [|done].
    destruct (find_one (by_oid_user current_user_id) _) as [user|] eqn:Eu.
    + destruct (negb _); simpl; discriminate.
    + intros _. simpl. by rewrite (user_missing_no_leave _ _ _ Eu).
  - intros detail. unfold join_group_by_api_key.
    destruct (find_one _ (groups d)) as [group|]; [|done].
    destruct (find_one (by_oid_user current_user_id) _) as [user|] eqn:Eu.
    + destruct (negb _); simpl; discriminate.
    + intros _. simpl. by rewrite (user_missing_no_leave _ _ _ Eu).
Qed.

Lemma unresolved_group_changes_nothing_witness :
  join_group_by_referral "REF_NONE" "u1" 500 Realtime.init
    (Scenario.db_member_of_A, ∅)
  = (HTTPException 404 "Invalid referral code or API key",
     (Scenario.db_member_of_A, ∅)).
Proof.
  apply (unresolved_group_changes_nothing "REF_NONE" "u1" 500 Realtime.init
           (Scenario.db_member_of_A, ∅)).
  reflexivity.
Defined.

(** C3 fails as stated: user u1, an active member of group A whose IB
    status is no longer approved, asks to join B with B's valid referral
    code.  The call fails with 400, yet the membership in A is left, the
    trading account is inactive and the user's group pointer is gone. *)
Lemma failed_join_still_leaves :
  let r := join_group_by_referral "REF_B" "u1" 500 Realtime.init
             (Scenario.db_member_of_A, ∅) in
  fst r = HTTPException 400 "IB change must be approved before joining a group"
  ∧ map m_status (members Scenario.db_member_of_A) = ["active"]
  ∧ map m_status (members (snd r).1) = ["left"]
  ∧ map a_status (trading_accounts Scenario.db_member_of_A) = ["active"]
  ∧ map a_status (trading_accounts (snd r).1) = ["inactive"]
  ∧ map u_group_id (users Scenario.db_member_of_A) = [Some "a1"]
  ∧ map u_group_id (users (snd r).1) = [None].
Proof. repeat split. Qed.

(** A referral or API-key join writes no member record but the "left"
    marks of the graceful leave. *)
Lemma members_join_group_by_referral code current_user_id now rt w :
  ∃ query, members (snd (join_group_by_referral code current_user_id now rt w)).1
           = update_many query (set_left now) (members w.1).
Proof.
  destruct w as [d h]. unfold join_group_by_referral.
  destruct (find_one _ (groups d)) as [group|];
    [|exists (λ _, false); simpl; by rewrite update_many_never].
  assert (∃ query,
    members match find_existing_membership current_user_id d with
            | Some existing => leave_previous_group existing current_user_id now d
            | None => d
            end = update_many query (set_left now) (members d)) as Hq.
  { destruct (find_existing_membership current_user_id d).
    - apply members_leave_previous_group.
    - exists (λ _, false). by rewrite update_many_never. }
  destruct (find_one (by_oid_user current_user_id) _) as [user|]; [|exact Hq].
  destruct (negb _); exact Hq.
Qed.

Lemma members_join_group_by_api_key code current_user_id now rt w :
  ∃ query, members (snd (join_group_by_api_key code current_user_id now rt w)).1
           = update_many query (set_left now) (members w.1).
Proof.
  destruct w as [d h]. unfold join_group_by_api_key.
  destruct (find_one _ (groups d)) as [group|];
    [|exists (λ _, false); simpl; by rewrite update_many_never].
  assert (∃ query,
    members match find_existing_membership current_user_id d with
            | Some existing => leave_previous_group existing current_user_id now d
            | None => d
            end = update_many query (set_left now) (members d)) as Hq.
  { destruct (find_existing_membership current_user_id d).
    - apply members_leave_previous_group.
    - exists (λ _, false). by rewrite update_many_never. }
  destruct (find_one (by_oid_user current_user_id) _) as [user|]; [|exact Hq].
  destruct (negb _); exact Hq.
Qed.

(** Marking records left creates none, and no pending one. *)
Lemma update_many_set_left_no_new query now (c : list member) :
  length (update_many query (set_left now) c) = length c
  ∧ ∀ m, m ∈ update_many query (set_left now) c → m_status m = "pending" → m ∈ c.
Proof.
  split; [apply length_update_many|].
  intros m Hin Hst. unfold update_many in Hin.
  apply list_elem_of_fmap in Hin as (x & -> & Hx).
  destruct (query x); [discriminate Hst | done].
Qed.

(** The user document after the optional graceful leave keeps its IB
    status and has its group pointer cleared when a leave ran. *)
Lemma user_after_leave_found current_user_id now d u :
  find_one (by_oid_user current_user_id) (users d) = Some u →
  ∃ u1,
    find_one (by_oid_user current_user_id)
      (users match find_existing_membership current_user_id d with
             | Some existing => leave_previous_group existing current_user_id now d
             | None => d
             end) = Some u1
    ∧ u_ib_status u1 = u_ib_status u
    ∧ u_group_id u1 = None.
Proof.
  intros Hu. pose proof (user_after_leave current_user_id now d) as Ha.
  simpl in Ha. rewrite Ha. clear Ha.
  destruct (find_existing_membership current_user_id d) eqn:E.
  - rewrite Hu. simpl. eauto.
  - exists u. split; [done|]. split; [done|].
    by apply (no_existing_membership current_user_id d).
Qed.

Lemma join_group_by_referral_outcome code current_user_id now rt d h group u :
  find_one (λ g, bool_decide (g_referral_code g = Some code)
                 || bool_decide (g_api_key g = Some code)) (groups d) = Some group →
  find_one (by_oid_user current_user_id) (users d) = Some u →
  let r := join_group_by_referral code current_user_id now rt (d, h) in
  (u_ib_status u = Some "approved" →
     fst r = Response (joined_response group now)
     ∧ u_group_id <$> find_one (by_oid_user current_user_id) (users (snd r).1)
       = Some (Some (g_oid group)))
  ∧ (u_ib_status u ≠ Some "approved" →
     fst r = HTTPException 400 "IB change must be approved before joining a group"
     ∧ u_group_id <$> find_one (by_oid_user current_user_id) (users (snd r).1)
       = Some None).
Proof.
  intros Hg Hu. simpl. unfold join_group_by_referral. rewrite Hg.
  destruct (user_after_leave_found current_user_id now d u Hu)
    as (u1 & Hu1 & Hib & Hgid).
  rewrite Hu1, Hib. split; intros Ha.
  - rewrite bool_decide_eq_true_2 by done. simpl. split; [done|].
    rewrite find_one_update_one by done. by rewrite Hu1.
  - rewrite bool_decide_eq_false_2 by done. simpl. split; [done|].
    rewrite Hu1. simpl. by rewrite Hgid.
Qed.

Lemma join_group_by_api_key_outcome api_key current_user_id now rt d h group u :
  find_one (λ g, bool_decide (g_api_key g = Some api_key)) (groups d) = Some group →
  find_one (by_oid_user current_user_id) (users d) = Some u →
  let r := join_group_by_api_key api_key current_user_id now rt (d, h) in
  (u_ib_status u = Some "approved" →
     fst r = Response (joined_response group now)
     ∧ u_group_id <$> find_one (by_oid_user current_user_id) (users (snd r).1)
       = Some (Some (g_oid group)))
  ∧ (u_ib_status u ≠ Some "approved" →
     fst r = HTTPException 400 "IB change must be approved before joining a group"
     ∧ u_group_id <$> find_one (by_oid_user current_user_id) (users (snd r).1)
       = Some None).
Proof.
  intros Hg Hu. simpl. unfold join_group_by_api_key. rewrite Hg.
  destruct (user_after_leave_found current_user_id now d u Hu)
    as (u1 & Hu1 & Hib & Hgid).
  rewrite Hu1, Hib. split; intros Ha.
  - rewrite bool_decide_eq_true_2 by done. simpl. split; [done|].
    rewrite find_one_update_one by done. by rewrite Hu1.
  - rewrite bool_decide_eq_false_2 by done. simpl. split; [done|].
    rewrite Hu1. simpl. by rewrite Hgid.
Qed.

(** C5 (as the code has it). For a user whose IB status is approved and a
    referral code or API key that resolves to a group, the join succeeds
    and records the membership as the user's [group_id] pointer, set to
    the resolved group; when the IB status is not approved the call fails
    with 400 "IB change must be approved before joining a group" and the
    user is left with no group.  In neither case is a Membership record
    created: the members collection keeps its length and holds no pending
    record it did not hold before. *)
Theorem join_sets_group_pointer code current_user_id now rt d h u :
  find_one (by_oid_user current_user_id) (users d) = Some u →
  (∀ group,
     find_one (λ g, bool_decide (g_referral_code g = Some code)
                    || bool_decide (g_api_key g = Some code)) (groups d)
       = Some group →
     let r := join_group_by_referral code current_user_id now rt (d, h) in
     (u_ib_status u = Some "approved" →
        fst r = Response (joined_response group now)
        ∧ u_group_id <$> find_one (by_oid_user current_user_id) (users (snd r).1)
          = Some (Some (g_oid group)))
     ∧ (u_ib_status u ≠ Some "approved" →
        fst r = HTTPException 400 "IB change must be approved before joining a group"
        ∧ u_group_id <$> find_one (by_oid_user current_user_id) (users (snd r).1)
          = Some None)
     ∧ length (members (snd r).1) = length (members d)
     ∧ (∀ m, m ∈ members (snd r).1 → m_status m = "pending" → m ∈ members d))
  ∧ (∀ group,
     find_one (λ g, bool_decide (g_api_key g = Some code)) (groups d) = Some group →
     let r := join_group_by_api_key code current_user_id now rt (d, h) in
     (u_ib_status u = Some "approved" →
        fst r = Response (joined_response group now)
        ∧ u_group_id <$> find_one (by_oid_user current_user_id) (users (snd r).1)
          = Some (Some (g_oid group)))
     ∧ (u_ib_status u ≠ Some "approved" →
        fst r = HTTPException 400 "IB change must be approved before joining a group"
        ∧ u_group_id <$> find_one (by_oid_user current_user_id) (users (snd r).1)
          = Some None)
     ∧ length (members (snd r).1) = length (members d)
     ∧ (∀ m, m ∈ members (snd r).1 → m_status m = "pending" → m ∈ members d)).
Proof.
  intros Hu. split; intros group Hg r.
  - destruct (join_group_by_referral_outcome code current_user_id now rt d h
                group u Hg Hu) as [Hok Hno].
    destruct (members_join_group_by_referral code current_user_id now rt (d, h))
      as [query Hm].
    split; [exact Hok|]. split; [exact Hno|].
    subst r. rewrite Hm. apply update_many_set_left_no_new.
  - destruct (join_group_by_api_key_outcome code current_user_id now rt d h
                group u Hg Hu) as [Hok Hno].
    destruct (members_join_group_by_api_key code current_user_id now rt (d, h))
      as [query Hm].
    split; [exact Hok|]. split; [exact Hno|].
    subst r. rewrite Hm. apply update_many_set_left_no_new.
Qed.

Lemma join_sets_group_pointer_witness :
  fst (join_group_by_referral "REF_B" "u1" 500 Realtime.init
         (Scenario.db_approved_user, ∅))
  = Response (joined_response Scenario.group_B 500).
Proof.
  apply (join_sets_group_pointer "REF_B" "u1" 500 Realtime.init
           Scenario.db_approved_user ∅ (Scenario.a_user "u1" "approved" None));
    reflexivity.
Defined.

(** C5 fails as stated: an approved user joins B with B's valid referral
    code; the call succeeds, and the members collection is as empty as
    before: no Membership record, pending or other, exists for the user. *)
Lemma join_creates_no_membership :
  let r := join_group_by_referral "REF_B" "u1" 500 Realtime.init
             (Scenario.db_approved_user, ∅) in
  fst r = Response (joined_response Scenario.group_B 500)
  ∧ members (snd r).1 = []
  ∧ map u_group_id (users (snd r).1) = [Some "b1"].
Proof. repeat split. Qed.

(** *** One record per stored user and group *)










End JoinProperties.

(* ===================================================================== *)
(** ** More on the notification hub                                       *)
(* ===================================================================== *)

Section RealtimeDelivery.
Import Realtime.
Implicit Types (d : gmap string (gset positive)) (h : heap)
               (self : RealtimeService) (q : positive) (qs : gset positive).

Lemma qitems_notify_user_cases user_id item self h q :
  qitems (notify_user user_id item self h) q =
    if decide (q ∈ default ∅ (user_connections self !! user_id))
    then qitems h q ++ [item] else qitems h q.
Proof.
  unfold notify_user.
  destruct (user_connections self !! user_id) as [qs|]; simpl.
  - apply qitems_put_all.
  - rewrite decide_False; [done | apply not_elem_of_empty].
Qed.

(** X1. [notify_user] reaches the queues registered for that user in
    [user_connections] and no other: each of them gets the event appended
    once, every other queue keeps its items, and for a user without an
    entry the heap is returned as it was. *)
Theorem notify_user_reaches_only_its_user user_id item self h :
  (∀ q, qitems (notify_user user_id item self h) q =
          if decide (q ∈ default ∅ (user_connections self !! user_id))
          then qitems h q ++ [item] else qitems h q)
  ∧ (user_connections self !! user_id = None →
       notify_user user_id item self h = h).
Proof.
  split.
  - intros q. apply qitems_notify_user_cases.
  - intros Hn. unfold notify_user. by rewrite Hn.
Qed.

Lemma qitems_broadcast item d h q :
  qitems (map_fold (λ _ qs acc, put_all item qs acc) h d) q
  = qitems h q ++ replicate (registrations q d) item.
Proof.
  rewrite map_fold_foldr. unfold registrations.
  induction (map_to_list d) as [|[uid qs] l IH]; simpl.
  - by rewrite app_nil_r.
  - rewrite qitems_put_all, IH. case_bool_decide as Hq; simpl.
    + rewrite decide_True by done.
      rewrite <- app_assoc. f_equal.
      change (item :: replicate ?n item) with (replicate (S n) item).
      by rewrite replicate_S_end.
    + by rewrite decide_False.
Qed.

(** X2. The three broadcasts deliver by registration: [notify_admins],
    [notify_masters] and [notify_group_members] append the event to a
    queue once for every user id of their dictionary that holds it, so a
    queue held by nobody there is left alone; [notify_group_members] takes
    no account of the group, it reaches every connected user. *)
Theorem broadcast_once_per_registration item self h q :
  qitems (notify_admins item self h) q
    = qitems h q ++ replicate (registrations q (admin_connections self)) item
  ∧ qitems (notify_masters item self h) q
    = qitems h q ++ replicate (registrations q (master_connections self)) item
  ∧ qitems (notify_group_members item self h) q
    = qitems h q ++ replicate (registrations q (user_connections self)) item.
Proof. repeat split; apply qitems_broadcast. Qed.

Lemma dict_add_twice user_id q d :
  dict_add user_id q (dict_add user_id q d) = dict_add user_id q d.
Proof.
  apply map_eq. intros uid. destruct (decide (user_id = uid)) as [<-|Hne].
  - rewrite !dict_add_lookup. simpl. f_equal.
    apply set_eq. intros x. rewrite !elem_of_union. tauto.
  - by rewrite !dict_add_lookup_ne.
Qed.

(** X3. Registering is idempotent and confined to its role: adding the same
    queue for the same user and role a second time changes nothing, the
    queue is then held by the user under that role, and the registry of any
    other user is as before. *)
Theorem add_connection_idempotent user_id user_role q self :
  add_connection user_id user_role q (add_connection user_id user_role q self)
    = add_connection user_id user_role q self
  ∧ q ∈ default ∅ (connections_of user_role
                     (add_connection user_id user_role q self) !! user_id)
  ∧ (∀ role uid, uid ≠ user_id →
       connections_of role (add_connection user_id user_role q self) !! uid
       = connections_of role self !! uid).
Proof.
  unfold add_connection, connections_of. destruct self as [a u m].
  split; [|split].
  - repeat case_decide; simpl; by rewrite dict_add_twice.
  - repeat case_decide; simpl; rewrite dict_add_lookup; simpl;
      apply elem_of_union_r, elem_of_singleton; done.
  - intros role uid Hne.
    repeat case_decide; simpl; try done; by rewrite dict_add_lookup_ne.
Qed.

Lemma dict_discard_absent user_id q d :
  d !! user_id ≠ Some ∅ →
  q ∉ default ∅ (d !! user_id) →
  dict_discard user_id q d = d.
Proof.
  intros Hne Hq. apply map_eq. intros uid.
  destruct (decide (user_id = uid)) as [<-|Hu].
  - rewrite dict_discard_lookup. destruct (d !! user_id) as [s|] eqn:E; [|done].
    simpl in Hq.
    assert (s ∖ {[q]} = s) as ->.
    { apply set_eq. intros x. rewrite elem_of_difference, elem_of_singleton.
      split; [by intros [? ?] | intros Hx; split; [done | by intros ->]]. }
    case_decide; [congruence | done].
  - by rewrite dict_discard_lookup_ne.
Qed.

(** X4. Removing a connection that is not registered is harmless: when the
    user holds the queue under no role (and has no empty entry), then
    [remove_connection] with any role returns the registry unchanged. *)
Theorem remove_unregistered_connection user_id user_role q self :
  (∀ role, connections_of role self !! user_id ≠ Some ∅) →
  (∀ role, q ∉ default ∅ (connections_of role self !! user_id)) →
  remove_connection user_id user_role q self = self.
Proof.
  intros Hne Hq.
  pose proof (Hne "admin") as Hna. pose proof (Hq "admin") as Hqa.
  pose proof (Hne "master") as Hnm. pose proof (Hq "master") as Hqm.
  pose proof (Hne "user") as Hnu. pose proof (Hq "user") as Hqu.
  unfold connections_of in *. simpl in *.
  unfold remove_connection. destruct self as [a u m]. simpl in *.
  repeat case_match; try done; by rewrite dict_discard_absent.
Qed.

Lemma remove_unregistered_connection_witness :
  remove_connection "u1" "user" 9 Scenario.with_admin = Scenario.with_admin.
Proof.
  apply (remove_unregistered_connection "u1" "user" 9 Scenario.with_admin).
  - intros role. unfold connections_of. repeat case_decide; vm_compute; discriminate.
  - intros role. unfold connections_of.
    repeat case_decide; vm_compute; intros Hin; inversion Hin.
Defined.

(** X5. A removed user connection receives nothing more: after
    [remove_connection] with a role other than "admin" and "master",
    [notify_user] for that user leaves the queue's items as they are. *)
Theorem removed_connection_is_not_notified user_id user_role q item self h :
  user_role ≠ "admin" → user_role ≠ "master" →
  qitems (notify_user user_id item
            (remove_connection user_id user_role q self) h) q
  = qitems h q.
Proof.
  intros Ha Hm.
  rewrite qitems_notify_user_cases.
  rewrite decide_False; [done|].
  unfold remove_connection.
  rewrite (bool_decide_eq_false_2 _ Ha), (bool_decide_eq_false_2 _ Hm). simpl.
  case_bool_decide as Hu; simpl.
  - rewrite dict_discard_lookup. destruct (user_connections self !! user_id) as [s|].
    + case_decide; simpl; [apply not_elem_of_empty|].
      rewrite elem_of_difference, elem_of_singleton. tauto.
    + simpl. apply not_elem_of_empty.
  - destruct (user_connections self !! user_id) as [s|] eqn:E.
    + exfalso. apply Hu. eauto.
    + simpl. apply not_elem_of_empty.
Qed.

Lemma removed_connection_is_not_notified_witness :
  qitems (notify_user "u1" Scenario.ping
            (remove_connection "u1" "user" 1 (Scenario.one_tab.1))
            (Scenario.one_tab.2)) 1
  = qitems (Scenario.one_tab.2) 1.
Proof.
  apply (removed_connection_is_not_notified "u1" "user" 1 Scenario.ping
           (Scenario.one_tab.1) (Scenario.one_tab.2)); discriminate.
Defined.

Lemma notify_user_reaches_only_its_user_witness :
  notify_user "nobody" Scenario.ping (Scenario.one_tab.1) (Scenario.one_tab.2)
  = Scenario.one_tab.2.
Proof.
  apply (notify_user_reaches_only_its_user "nobody" Scenario.ping
           (Scenario.one_tab.1) (Scenario.one_tab.2)).
  reflexivity.
Defined.

Lemma add_connection_idempotent_witness :
  connections_of "user" (add_connection "u2" "user" 2 (Scenario.one_tab.1)) !! "u1"
  = connections_of "user" (Scenario.one_tab.1) !! "u1".
Proof.
  apply (add_connection_idempotent "u2" "user" 2 (Scenario.one_tab.1)).
  discriminate.
Defined.

End RealtimeDelivery.

(* ===================================================================== *)
(** ** More on settlements and groups                                     *)
(* ===================================================================== *)

Section SettlementAndGroupBehaviour.
Import Mongo Backend.
Implicit Types (d : db) (g : group) (s : settlement).

Lemma set_settlements_same (f : list settlement → list settlement) d :
  f (settlements d) = settlements d → set_settlements f d = d.
Proof. destruct d. unfold set_settlements. simpl. by intros ->. Qed.


(** Reading under a query that the updated documents never answer. *)
Lemma find_one_update_one_disjoint {D} (p q : D → bool) (f : D → D) (c : list D) :
  (∀ x, q (f x) = q x) → (∀ x, p x = true → q x = false) →
  find_one q (update_one p f c) = find_one q c.
Proof.
  intros Hq Hpq. unfold find_one. induction c as [|x c IH]; simpl; [done|].
  destruct (p x) eqn:E; simpl.
  - by rewrite Hq, (Hpq x E).
  - destruct (q x); [done | apply IH].
Qed.

(** Reading back a document inserted under a key not in use. *)
Lemma find_one_insert_one_fresh {D} (q : D → bool) (x : D) (c : list D) :
  find_one q c = None → q x = true → find_one q (insert_one x c) = Some x.
Proof.
  unfold find_one, insert_one. induction c as [|y c IH]; simpl.
  - by intros _ ->.
  - destruct (q y); [done | apply IH].
Qed.

(** X6. Approving a settlement id that no settlement carries is answered
    with success: [approve_settlement] with status "approved" returns
    "Settlement approved successfully" and leaves the database as it was. *)
Theorem approve_unknown_settlement settlement_id a admin now d :
  find_one (by_settlement_id settlement_id) (settlements d) = None →
  sa_status a = "approved" →
  approve_settlement settlement_id a admin now d
  = (StatusTrue "Settlement approved successfully" (), d).
Proof.
  intros Hs Ha. unfold approve_settlement.
  rewrite bool_decide_eq_true_2 by done.
  rewrite set_settlements_same by (by apply update_one_none).
  unfold resume_group_if_paused.
  apply find_nil_find_one in Hs. by rewrite Hs.
Qed.

Lemma approve_unknown_settlement_witness :
  approve_settlement "s404" Scenario.approve "admin1" 400 Scenario.db_with_staff
  = (StatusTrue "Settlement approved successfully" (), Scenario.db_with_staff).
Proof.
  apply (approve_unknown_settlement "s404" Scenario.approve "admin1" 400
           Scenario.db_with_staff); reflexivity.
Defined.

(** X7. A rejection is stored and still reported as a failure: when an
    admin rejects an existing settlement through the route, the settlement
    ends "rejected" with the admin as [approved_by] and no group document
    is written, but the answer is HTTP 400 "Failed to update settlement". *)
Theorem rejection_is_stored_and_answered_400 settlement_id a current_user_id
    now d u s :
  get_user_by_id current_user_id d = Some u →
  u_role u = "admin" →
  find_one (by_settlement_id settlement_id) (settlements d) = Some s →
  sa_status a = "rejected" →
  let r := approve_settlement_route settlement_id a current_user_id now d in
  fst r = HTTPException 400 "Failed to update settlement"
  ∧ find_one (by_settlement_id settlement_id) (settlements (snd r))
    = Some (set_approval a current_user_id now s)
  ∧ s_status (set_approval a current_user_id now s) = "rejected"
  ∧ s_approved_by (set_approval a current_user_id now s) = Some current_user_id
  ∧ groups (snd r) = groups d.
Proof.
  intros Hu Hr Hs Ha. simpl. unfold approve_settlement_route.
  rewrite Hu, bool_decide_eq_true_2 by done. simpl.
  unfold approve_settlement. rewrite bool_decide_eq_false_2 by (rewrite Ha; done).
  simpl. rewrite find_one_update_one by done. rewrite Hs. done.
Qed.

Lemma rejection_is_stored_and_answered_400_witness :
  fst (approve_settlement_route "s1" Scenario.reject "admin1" 400
         Scenario.db_with_staff)
  = HTTPException 400 "Failed to update settlement".
Proof.
  apply (rejection_is_stored_and_answered_400 "s1" Scenario.reject "admin1" 400
           Scenario.db_with_staff (Scenario.a_staff "admin1" "admin")
           (Scenario.a_settlement "s1" "A" "pending" None false));
    reflexivity.
Defined.

(** X8. Only an admin gets through the settlement route: for a caller that
    is unknown, or known with any role other than "admin" (a group manager
    included), the answer is 404 or 403 and nothing is written. *)
Theorem settlement_route_is_admin_only settlement_id a current_user_id now d :
  (∀ u, get_user_by_id current_user_id d = Some u → u_role u ≠ "admin") →
  approve_settlement_route settlement_id a current_user_id now d
    = (HTTPException 404 "User not found", d)
  ∨ approve_settlement_route settlement_id a current_user_id now d
    = (HTTPException 403 "Admin access required", d).
Proof.
  intros Hu. unfold approve_settlement_route.
  destruct (get_user_by_id current_user_id d) as [u|]; [|by left].
  right. rewrite bool_decide_eq_false_2 by (by apply Hu). done.
Qed.

Lemma settlement_route_is_admin_only_witness :
  approve_settlement_route "s1" Scenario.approve "manager1" 400
    Scenario.db_with_staff
    = (HTTPException 404 "User not found", Scenario.db_with_staff)
  ∨ approve_settlement_route "s1" Scenario.approve "manager1" 400
      Scenario.db_with_staff
    = (HTTPException 403 "Admin access required", Scenario.db_with_staff).
Proof.
  apply (settlement_route_is_admin_only "s1" Scenario.approve "manager1" 400
           Scenario.db_with_staff).
  intros u [= <-]. discriminate.
Defined.

(** X9. A submission that cannot be computed stores nothing: for an unknown
    group the answer is "Group not found", for a group document without the
    [profit_sharing_percent] key the subscript raises [KeyError], and in
    every case but success the database is as before; a success appends
    exactly one settlement, pending, not approved, not auto-paused. *)
Theorem submit_settlement_outcomes settlement_data submitted_by uuid now d :
  (get_group_by_id (sc_group_id settlement_data) d = None →
     submit_settlement settlement_data submitted_by uuid now d
     = (StatusFalse "Group not found", d))
  ∧ (∀ g, get_group_by_id (sc_group_id settlement_data) d = Some g →
       g_profit_sharing_percent g = None →
       submit_settlement settlement_data submitted_by uuid now d
       = (KeyError "profit_sharing_percent", d))
  ∧ (∀ m record,
       fst (submit_settlement settlement_data submitted_by uuid now d)
         = StatusTrue m record →
       settlements (snd (submit_settlement settlement_data submitted_by uuid now d))
         = settlements d ++ [record]
       ∧ s_settlement_id record = uuid
       ∧ s_status record = "pending"
       ∧ s_approved_by record = None
       ∧ s_auto_paused record = false)
  ∧ ((∀ m record,
        fst (submit_settlement settlement_data submitted_by uuid now d)
          ≠ StatusTrue m record) →
     snd (submit_settlement settlement_data submitted_by uuid now d) = d).
Proof.
  unfold submit_settlement, calculate_profit_sharing.
  split; [|split; [|split]].
  - by intros ->.
  - intros g -> Hp. simpl. by rewrite Hp.
  - intros m record.
    destruct (get_group_by_id _ d) as [g|]; [|discriminate]. simpl.
    destruct (g_profit_sharing_percent g); [|discriminate]. simpl.
    intros [= _ <-]. done.
  - destruct (get_group_by_id _ d) as [g|]; [|done]. simpl.
    destruct (g_profit_sharing_percent g); [|done]. simpl.
    intros H. exfalso. by eapply H.
Qed.

Lemma submit_settlement_outcomes_witness :
  submit_settlement
    {| sc_group_id := "Z"; sc_period_from := 100; sc_period_to := 200;
       sc_payment_method := "bank"; sc_payment_reference := "UTR1";
       sc_amount_paid := 12000%float; sc_payment_proof_file := None |}
    "manager1" "s9" 250 Scenario.empty_db
  = (StatusFalse "Group not found", Scenario.empty_db).
Proof.
  apply (submit_settlement_outcomes
           {| sc_group_id := "Z"; sc_period_from := 100; sc_period_to := 200;
              sc_payment_method := "bank"; sc_payment_reference := "UTR1";
              sc_amount_paid := 12000%float; sc_payment_proof_file := None |}
           "manager1" "s9" 250 Scenario.empty_db).
  reflexivity.
Defined.

(** X10. Submission and approval compose: for a group that carries a
    percentage and a settlement id not in use yet, approving the submitted
    settlement finds it again under that id, approved by the admin, with
    the [amount_due] and percentage computed at submission, and leaves the
    group's [trading_status] "active". *)
Theorem submit_then_approve settlement_data submitted_by uuid now a admin now' d
    g percent :
  get_group_by_id (sc_group_id settlement_data) d = Some g →
  g_profit_sharing_percent g = Some percent →
  find_one (by_settlement_id uuid) (settlements d) = None →
  sa_status a = "approved" →
  let d1 := snd (submit_settlement settlement_data submitted_by uuid now d) in
  let r := approve_settlement uuid a admin now' d1 in
  fst r = StatusTrue "Settlement approved successfully" ()
  ∧ (∃ s, find_one (by_settlement_id uuid) (settlements (snd r)) = Some s
          ∧ s_status s = "approved"
          ∧ s_approved_by s = Some admin
          ∧ s_profit_share_percent s = percent
          ∧ s_amount_due s
            = PrimFloat.mul mock_profit (PrimFloat.div percent 100%float))
  ∧ g_trading_status <$> get_group_by_id (sc_group_id settlement_data) (snd r)
    = Some "active".
Proof.
  intros Hg Hp Hfresh Ha d1 r.
  assert (∃ record, d1 = set_settlements (insert_one record) d
                    ∧ s_settlement_id record = uuid
                    ∧ s_group_id record = sc_group_id settlement_data
                    ∧ s_profit_share_percent record = percent
                    ∧ s_amount_due record
                      = PrimFloat.mul mock_profit (PrimFloat.div percent 100%float))
    as (record & Hd1 & Hid & Hgid & Hpct & Hdue).
  { subst d1. unfold submit_settlement, calculate_profit_sharing.
    rewrite Hg. simpl. rewrite Hp. simpl. eexists. split; [reflexivity|]. done. }
  assert (find_one (by_settlement_id uuid) (settlements d1) = Some record) as Hfind.
  { rewrite Hd1. simpl. apply find_one_insert_one_fresh; [done|].
    unfold by_settlement_id. by rewrite bool_decide_eq_true_2. }
  assert (get_group_by_id (s_group_id record) d1 = Some g) as Hg1.
  { rewrite Hgid, Hd1. exact Hg. }
  split; [|split].
  - subst r. unfold approve_settlement. by rewrite bool_decide_eq_true_2.
  - exists (set_approval a admin now' record). subst r.
    rewrite settlements_approve_settlement, find_one_update_one by done.
    rewrite Hfind. simpl. by rewrite Ha.
  - subst r. rewrite <- Hgid.
    by rewrite (groups_approve_settlement _ _ _ _ _ record g).
Qed.

Lemma submit_then_approve_witness :
  fst (approve_settlement "s9" Scenario.approve "admin1" 300
         (snd (submit_settlement Scenario.submission "manager1" "s9" 250
                 Scenario.empty_db)))
  = StatusTrue "Settlement approved successfully" ().
Proof.
  apply (submit_then_approve Scenario.submission "manager1" "s9" 250
           Scenario.approve "admin1" 300 Scenario.empty_db Scenario.group_A
           80%float); reflexivity.
Defined.

(** *** Group documents *)

Lemma by_group_id_disjoint group_id group_id' g :
  group_id' ≠ group_id → by_group_id group_id g = true → by_group_id group_id' g = false.
Proof.
  unfold by_group_id. intros Hne Hg. apply bool_decide_eq_true_1 in Hg.
  apply bool_decide_eq_false_2. congruence.
Qed.

(** X11. [toggle_trading_status] writes one group and nothing else: for an
    unknown group id it answers "Group not found" and changes nothing; for
    a known one the group read back carries the requested status (any
    string: the service does not validate it) and all its other keys but
    [updated_at], every other group id reads as before, and users, members,
    trading accounts and settlements are untouched. *)
Theorem toggle_trading_status_writes_one_group group_id status user_id now d :
  (get_group_by_id group_id d = None →
     toggle_trading_status group_id status user_id now d
     = (StatusFalse "Group not found", d))
  ∧ (∀ g, get_group_by_id group_id d = Some g →
       let d' := snd (toggle_trading_status group_id status user_id now d) in
       get_group_by_id group_id d' = Some (set_trading_status status now g)
       ∧ (∀ group_id', group_id' ≠ group_id →
            get_group_by_id group_id' d' = get_group_by_id group_id' d)
       ∧ length (groups d') = length (groups d)
       ∧ (users d', members d', trading_accounts d', settlements d')
         = (users d, members d, trading_accounts d, settlements d)).
Proof.
  unfold toggle_trading_status. split.
  - by intros ->.
  - intros g Hg. rewrite Hg. simpl. split; [|split; [|split]].
    + rewrite get_group_by_id_update_group_document, Hg. done.
    + intros group_id' Hne. unfold get_group_by_id, update_group_document. simpl.
      apply find_one_update_one_disjoint; [done|].
      intros x. by apply by_group_id_disjoint.
    + apply length_update_one.
    + done.
Qed.

Lemma toggle_trading_status_writes_one_group_witness :
  toggle_trading_status "Z" "active" "manager1" 10 Scenario.empty_db
  = (StatusFalse "Group not found", Scenario.empty_db).
Proof.
  apply (toggle_trading_status_writes_one_group "Z" "active" "manager1" 10
           Scenario.empty_db).
  reflexivity.
Defined.

(** X12. An edit of the percentage is what the next calculation uses:
    after [update_group] with a new [profit_sharing_percent], the group
    keeps its id, [_id], referral code and master accounts, and
    [calculate_profit_sharing] for it answers with the new percentage and
    the amount due computed from it. *)
Theorem update_group_then_calculate group_id update_data user_id now
    period_from period_to d g percent :
  get_group_by_id group_id d = Some g →
  up_profit_sharing_percent update_data = Some percent →
  let r := update_group group_id update_data user_id now d in
  fst r = StatusTrue "Group updated successfully"
            (apply_group_update update_data now g)
  ∧ (g_oid (apply_group_update update_data now g),
     g_group_id (apply_group_update update_data now g),
     g_referral_code (apply_group_update update_data now g),
     g_master_accounts (apply_group_update update_data now g))
    = (g_oid g, g_group_id g, g_referral_code g, g_master_accounts g)
  ∧ calculate_profit_sharing group_id period_from period_to (snd r)
    = StatusTrue ""
        {| c_total_profit := mock_profit;
           c_profit_share_percent := percent;
           c_amount_due := PrimFloat.mul mock_profit
                             (PrimFloat.div percent 100%float);
           c_period_from := period_from;
           c_period_to := period_to |}.
Proof.
  intros Hg Hp. simpl. unfold update_group. rewrite Hg.
  rewrite get_group_by_id_update_group_document, Hg. simpl.
  split; [done|]. split; [done|].
  unfold calculate_profit_sharing.
  rewrite get_group_by_id_update_group_document, Hg. simpl. by rewrite Hp.
Qed.

Lemma update_group_then_calculate_witness :
  calculate_profit_sharing "A" 100 200
    (snd (update_group "A" Scenario.halve_percentage "admin1" 260
            Scenario.empty_db))
  = StatusTrue ""
      {| c_total_profit := mock_profit;
         c_profit_share_percent := 40%float;
         c_amount_due := PrimFloat.mul mock_profit
                           (PrimFloat.div 40%float 100%float);
         c_period_from := 100;
         c_period_to := 200 |}.
Proof.
  apply (update_group_then_calculate "A" Scenario.halve_percentage "admin1" 260
           100 200 Scenario.empty_db Scenario.group_A 40%float); reflexivity.
Defined.

(** *** Creating a group *)

Lemma names_update_one_master_accounts p master_accounts now (c : list group) :
  map g_group_name (update_one p (set_master_accounts master_accounts now) c)
  = map g_group_name c.
Proof.
  induction c as [|x c IH]; simpl; [done|].
  destruct (p x); simpl; [done | by rewrite IH].
Qed.

Lemma find_nil_not_in {D} (q : D → bool) (c : list D) x :
  find q c = [] → x ∈ c → q x = false.
Proof.
  unfold find. induction c as [|y c IH]; simpl; [by intros _ ?%elem_of_nil|].
  destruct (q y) eqn:E; [done|].
  intros Hc [->|Hx]%elem_of_cons; [done | by apply IH].
Qed.

(** X13. Group names stay unique under [create_group]: a name already in
    use is refused with "Group with this name already exists" and nothing
    is written; and if no two group documents share a name before the
    call, none do after it. *)
Theorem create_group_keeps_names_unique group_data created_by uuid oid api_key
    add_master_account now d :
  (∀ g, find_one (λ g, bool_decide (g_group_name g = gc_group_name group_data))
               (groups d) = Some g →
        create_group group_data created_by uuid oid api_key add_master_account now d
        = (StatusFalse "Group with this name already exists", d))
  ∧ (NoDup (map g_group_name (groups d)) →
     NoDup (map g_group_name
              (groups (snd (create_group group_data created_by uuid oid api_key
                              add_master_account now d))))).
Proof.
  split.
  - intros g Hg. unfold create_group.
    rewrite <- head_find in Hg. destruct (find _ (groups d)); [done|done].
  - intros Hd. unfold create_group.
    destruct (find _ (groups d)) eqn:E; [|done].
    assert (NoDup (map g_group_name (groups d) ++ [gc_group_name group_data]))
      as Hnew.
    { apply NoDup_app. split; [done|]. split; [|apply NoDup_singleton].
      intros name Hin ->%list_elem_of_singleton.
      apply list_elem_of_fmap in Hin as (x & Hx & Hin).
      pose proof (find_nil_not_in _ _ x E Hin) as Hq. simpl in Hq.
      apply bool_decide_eq_false_1 in Hq. congruence. }
    destruct (omap add_master_account (gc_master_accounts group_data)); simpl.
    + unfold insert_one. by rewrite map_app.
    + rewrite names_update_one_master_accounts. unfold insert_one.
      by rewrite map_app.
Qed.

Lemma create_group_keeps_names_unique_witness :
  NoDup (map g_group_name
           (groups (snd (create_group Scenario.two_masters "admin1" "G" "g1" "KEY_G"
                           Scenario.copier_refuses_5001 10 Scenario.empty_db)))).
Proof.
  apply (create_group_keeps_names_unique Scenario.two_masters "admin1" "G" "g1"
           "KEY_G" Scenario.copier_refuses_5001 10 Scenario.empty_db).
  simpl. apply NoDup_cons. split.
  - intros [H|H]%elem_of_cons; [discriminate H | by apply elem_of_nil in H].
  - apply NoDup_singleton.
Defined.

Lemma assign_master_ids_fresh (ids : list string) (n : nat) :
  (length ids ≤ n)%nat →
  assign_master_ids ids (replicate n None)
  = (Some <$> ids) ++ replicate (n - length ids) None.
Proof.
  revert n. induction ids as [|i ids IH]; intros n Hn; simpl.
  - by destruct n.
  - destruct n as [|n]; simpl in *; [lia|]. rewrite IH by lia. done.
Qed.

Lemma length_omap_le {A B} (f : A → option B) (l : list A) :
  (length (omap f l) ≤ length l)%nat.
Proof. induction l as [|x l IH]; csimpl; [lia|]. destruct (f x); csimpl; lia. Qed.

Lemma map_const_replicate {A B} (b : B) (l : list A) :
  map (λ _, b) l = replicate (length l) b.
Proof. induction l; simpl; congruence. Qed.

(** X14. A created group can be read back, and the trade copier's ids are
    stored by position, not by account: for a free name and a group id not
    in use, [create_group] answers with the document that
    [get_group_by_id] then finds; it starts with trading "paused", both
    member counters 0 and the given percentage; and its master accounts
    carry the ids of the accounts the trade copier accepted, in order, on
    the leading slots, the remaining slots having none. *)
Theorem create_group_read_back group_data created_by uuid oid api_key
    add_master_account now d :
  find_one (λ g, bool_decide (g_group_name g = gc_group_name group_data))
    (groups d) = None →
  get_group_by_id uuid d = None →
  let r := create_group group_data created_by uuid oid api_key
             add_master_account now d in
  let ids := omap add_master_account (gc_master_accounts group_data) in
  ∃ g, fst r = StatusTrue "Group created successfully" g
       ∧ get_group_by_id uuid (snd r) = Some g
       ∧ g_trading_status g = "paused"
       ∧ (g_total_members g, g_active_members g) = (0%Z, 0%Z)
       ∧ g_profit_sharing_percent g = Some (gc_profit_sharing_percent group_data)
       ∧ g_master_accounts g
         = (Some <$> ids)
           ++ replicate (length (gc_master_accounts group_data) - length ids) None.
Proof.
  intros Hname Hfresh. simpl. unfold create_group.
  apply find_nil_find_one in Hname. rewrite Hname.
  pose proof (length_omap_le add_master_account (gc_master_accounts group_data))
    as Hlen.
  destruct (omap add_master_account (gc_master_accounts group_data))
    as [|i ids] eqn:E.
  - eexists. split; [reflexivity|]. split.
    { unfold get_group_by_id. simpl.
      apply find_one_insert_one_fresh; [exact Hfresh|].
      unfold by_group_id. by rewrite bool_decide_eq_true_2. }
    simpl. repeat split. rewrite Nat.sub_0_r. apply map_const_replicate.
  - eexists. split; [reflexivity|]. split.
    { unfold get_group_by_id. simpl. rewrite find_one_update_one by done.
      rewrite (find_one_insert_one_fresh _ _ _ Hfresh);
        [done | unfold by_group_id; by rewrite bool_decide_eq_true_2]. }
    simpl. repeat split.
    rewrite map_const_replicate.
    destruct (gc_master_accounts group_data) as [|acc accs]; simpl in *; [lia|].
    rewrite assign_master_ids_fresh by lia. done.
Qed.

Lemma create_group_read_back_witness :
  ∃ g, fst (create_group Scenario.two_masters "admin1" "G" "g1" "KEY_G"
              Scenario.copier_refuses_5001 10 Scenario.empty_db)
       = StatusTrue "Group created successfully" g
       ∧ get_group_by_id "G"
           (snd (create_group Scenario.two_masters "admin1" "G" "g1" "KEY_G"
                   Scenario.copier_refuses_5001 10 Scenario.empty_db)) = Some g
       ∧ g_trading_status g = "paused"
       ∧ (g_total_members g, g_active_members g) = (0%Z, 0%Z)
       ∧ g_profit_sharing_percent g = Some 25%float
       ∧ g_master_accounts g = [Some "tc-5002"; None].
Proof.
  apply (create_group_read_back Scenario.two_masters "admin1" "G" "g1" "KEY_G"
           Scenario.copier_refuses_5001 10 Scenario.empty_db); reflexivity.
Defined.

(** *** API keys *)

Lemma find_some_filter_nonempty {D} (p q : D → bool) (c : list D) x :
  find_one p c = Some x → q x = true → find q c ≠ [].
Proof.
  unfold find, find_one. induction c as [|y c IH]; simpl; [done|].
  destruct (p y) eqn:E.
  - intros [= ->] ->. done.
  - intros Hx Hq. destruct (q y); [done | by apply IH].
Qed.

(** Rewriting the only document that answers a query so that it no longer
    does leaves none that answers. *)
Lemma find_one_after_rewriting_only {D} (p q : D → bool) (f : D → D)
    (c : list D) x :
  find_one p c = Some x → q x = true → (∀ y, q (f y) = false) →
  (count_documents q c ≤ 1)%nat →
  find_one q (update_one p f c) = None.
Proof.
  intros Hx Hqx Hf. revert Hx. unfold count_documents.
  induction c as [|y c IH]; simpl; [done|].
  unfold find_one in *. simpl. destruct (p y) eqn:E; simpl.
  - intros [= ->]. unfold find. simpl. rewrite Hqx. simpl. intros Hc.
    rewrite Hf. apply find_nil_find_one. unfold find.
    destruct (List.filter q c); [done | simpl in Hc; lia].
  - intros Hx. unfold find. simpl. destruct (q y) eqn:Eq; simpl.
    + intros Hc. exfalso.
      apply (find_some_filter_nonempty p q c x Hx Hqx). unfold find.
      destruct (List.filter q c); [done | simpl in Hc; lia].
    + intros Hc. by apply IH.
Qed.

(** X28. Regenerating the API key replaces it and revokes the old one: the
    group read back carries the new key and all its other keys but
    [updated_at]; a join by API key with the new key no longer fails on the
    key; and when the group was the only one with the old key, and the new
    key differs, a join by API key with the old key is answered 404
    "Invalid API key". *)
Theorem regenerate_api_key_revokes group_id user_id new_api_key now d g old_key
    current_user_id now' rt h :
  get_group_by_id group_id d = Some g →
  g_api_key g = Some old_key →
  new_api_key ≠ old_key →
  (count_documents (λ g, bool_decide (g_api_key g = Some old_key)) (groups d) ≤ 1)%nat →
  let d' := snd (regenerate_api_key group_id user_id new_api_key now d) in
  fst (regenerate_api_key group_id user_id new_api_key now d)
    = StatusTrue "API key regenerated successfully" new_api_key
  ∧ (∃ g', get_group_by_id group_id d' = Some g'
           ∧ g_api_key g' = Some new_api_key
           ∧ (g_oid g', g_group_name g', g_trading_status g',
              g_profit_sharing_percent g', g_referral_code g')
             = (g_oid g, g_group_name g, g_trading_status g,
                g_profit_sharing_percent g, g_referral_code g))
  ∧ is_Some (find_one (λ g, bool_decide (g_api_key g = Some new_api_key))
               (groups d'))
  ∧ join_group_by_api_key old_key current_user_id now' rt (d', h)
    = (HTTPException 404 "Invalid API key", (d', h)).
Proof.
  intros Hg Hk Hne Hone. simpl. unfold regenerate_api_key. rewrite Hg. simpl.
  split; [done|]. split; [|split].
  - eexists. split.
    + rewrite get_group_by_id_update_group_document, Hg. reflexivity.
    + done.
  - apply (find_one_weaken (λ g, bool_decide (g_api_key g = Some new_api_key))
             (by_group_id group_id) _
             (apply_group_update
                {| up_group_name := None; up_company_name := None;
                   up_profit_sharing_percent := None; up_settlement_cycle := None;
                   up_trading_status := None; up_status := None;
                   up_api_key := Some new_api_key; up_total_members := None;
                   up_active_members := None |} now g)).
    clear Hone Hk. unfold get_group_by_id in Hg. revert Hg. unfold find_one.
    induction (groups d) as [|y c IH]; simpl; [done|].
    destruct (by_group_id group_id y) eqn:E; simpl.
    + intros [= ->]. rewrite bool_decide_eq_true_2 by done.
      rewrite by_group_id_apply_group_update, E. done.
    + intros Hx. destruct (bool_decide (g_api_key y = Some new_api_key)) eqn:Ek;
        simpl; [|by apply IH].
      rewrite E. simpl. by apply IH.
  - unfold join_group_by_api_key. simpl.
    rewrite (find_one_after_rewriting_only (by_group_id group_id)
               (λ g, bool_decide (g_api_key g = Some old_key)) _ (groups d) g);
      try done.
    + by rewrite bool_decide_eq_true_2.
    + intros y. simpl. apply bool_decide_eq_false_2. congruence.
Qed.

Lemma regenerate_api_key_revokes_witness :
  join_group_by_api_key "KEY_A" "u1" 20 Realtime.init
    (snd (regenerate_api_key "A" "admin1" "KEY_A2" 10 Scenario.empty_db), ∅)
  = (HTTPException 404 "Invalid API key",
     (snd (regenerate_api_key "A" "admin1" "KEY_A2" 10 Scenario.empty_db), ∅)).
Proof.
  eapply (regenerate_api_key_revokes "A" "admin1" "KEY_A2" 10 Scenario.empty_db
            Scenario.group_A "KEY_A" "u1" 20 Realtime.init ∅).
  - reflexivity.
  - reflexivity.
  - discriminate.
  - vm_compute. lia.
Defined.

End SettlementAndGroupBehaviour.

(* ===================================================================== *)
(** ** More on members                                                    *)
(* ===================================================================== *)

Section MemberBehaviour.
Import Mongo Backend.
Implicit Types (d : db) (m : member) (g : group).

(** X15. [verify_mt5_account] answers by the first check that fails, in
    the order of the code: "All account fields are required" exactly when
    one of broker, server, account number and password is empty; otherwise
    "Account number must be numeric" exactly when [account_no.isdigit()]
    is false; otherwise "Password must be at least 4 characters" exactly
    when [len(password)] is below 4; and it passes exactly when all four
    are non-empty, [isdigit] holds and the length is at least 4. *)
Theorem verify_mt5_account_accepts py broker server account_no password :
  let filled :=
    broker ≠ "" ∧ server ≠ "" ∧ account_no ≠ "" ∧ password ≠ "" in
  let r := verify_mt5_account py broker server account_no password in
  (r = Some "All account fields are required" ↔ ¬ filled)
  ∧ (r = Some "Account number must be numeric" ↔
       filled ∧ str_isdigit py account_no = false)
  ∧ (r = Some "Password must be at least 4 characters" ↔
       filled ∧ str_isdigit py account_no = true
       ∧ (str_len py password < 4)%nat)
  ∧ (r = None ↔
       filled ∧ str_isdigit py account_no = true
       ∧ (4 ≤ str_len py password)%nat).
Proof.
  intros filled r. subst filled r. unfold verify_mt5_account.
  destruct (decide (broker = "")) as [Hb|Hb].
  { rewrite (bool_decide_eq_true_2 _ Hb). simpl.
    repeat split; try done; tauto. }
  destruct (decide (server = "")) as [Hs|Hs].
  { rewrite (bool_decide_eq_false_2 _ Hb), (bool_decide_eq_true_2 _ Hs). simpl.
    repeat split; try done; tauto. }
  destruct (decide (account_no = "")) as [Ha|Ha].
  { rewrite (bool_decide_eq_false_2 _ Hb), (bool_decide_eq_false_2 _ Hs),
      (bool_decide_eq_true_2 _ Ha). simpl. repeat split; try done; tauto. }
  destruct (decide (password = "")) as [Hp|Hp].
  { rewrite (bool_decide_eq_false_2 _ Hb), (bool_decide_eq_false_2 _ Hs),
      (bool_decide_eq_false_2 _ Ha), (bool_decide_eq_true_2 _ Hp). simpl.
    repeat split; try done; tauto. }
  rewrite (bool_decide_eq_false_2 _ Hb), (bool_decide_eq_false_2 _ Hs),
    (bool_decide_eq_false_2 _ Ha), (bool_decide_eq_false_2 _ Hp). simpl.
  destruct (str_isdigit py account_no) eqn:Ed; simpl.
  - destruct (str_len py password <? 4)%nat eqn:El.
    + apply Nat.ltb_lt in El.
      repeat split; try done; try tauto; try lia.
      all: intros H; decompose [and] H; first [done | lia | tauto].
    + apply Nat.ltb_ge in El.
      repeat split; try done; try tauto; try lia.
      all: intros H; decompose [and] H; first [done | lia | tauto].
  - repeat split; try done; try tauto.
    all: intros H; decompose [and] H; first [done | tauto].
Qed.

Lemma length_find_le {D} (p q : D → bool) (c : list D) :
  (∀ x, q x = true → p x = true) →
  (length (find q c) ≤ length (find p c))%nat.
Proof.
  intros Hqp. unfold find. induction c as [|x c IH]; simpl; [done|].
  destruct (q x) eqn:E; simpl.
  - rewrite (Hqp _ E). simpl. lia.
  - destruct (p x); simpl; lia.
Qed.

(** X16. A refused [add_member_to_group] writes nothing: whenever the
    answer is [status False] (unknown user, unknown group, a record that is
    not "deleted" already present for the user in the group, or a failed
    account verification) the database is as before; and a user who has
    such a record is refused with "User is already a member of this
    group". *)
Theorem add_member_to_group_refusals py member_data added_by uuid oid
    add_slave_account now d :
  (∀ msg, fst (add_member_to_group py member_data added_by uuid oid
                 add_slave_account now d) = StatusFalse msg →
          snd (add_member_to_group py member_data added_by uuid oid
                 add_slave_account now d) = d)
  ∧ (∀ u g m,
       get_user_by_id (mc_user_id member_data) d = Some u →
       get_group_by_id (mc_group_id member_data) d = Some g →
       m ∈ members d →
       m_user_id m = UserId (mc_user_id member_data) →
       m_group_id m = mc_group_id member_data →
       m_status m ≠ "deleted" →
       add_member_to_group py member_data added_by uuid oid add_slave_account
         now d
       = (StatusFalse "User is already a member of this group", d)).
Proof.
  split.
  - intros msg. unfold add_member_to_group.
    destruct (get_user_by_id _ d); [|done].
    destruct (get_group_by_id _ d) as [group|]; [|done].
    destruct (find _ (members d)); [|done].
    destruct (verify_mt5_account _ _ _ _ _); [done|].
    destruct (create_slave_in_trade_copier group add_slave_account); discriminate.
  - intros u g m Hu Hg Hin Hmu Hmg Hst. unfold add_member_to_group.
    rewrite Hu, Hg.
    destruct (find _ (members d)) eqn:E; [|done].
    pose proof (find_nil_not_in _ _ m E Hin) as Hq. simpl in Hq.
    rewrite !bool_decide_eq_true_2 in Hq by done.
    rewrite bool_decide_eq_false_2 in Hq by done. discriminate.
Qed.

Lemma add_member_to_group_refusals_witness :
  add_member_to_group Scenario.on_ascii (Scenario.account_details "A") "admin1"
    "mem-2" "o2" None 20 Scenario.db_member_added
  = (StatusFalse "User is already a member of this group",
     Scenario.db_member_added).
Proof.
  eapply (proj2 (add_member_to_group_refusals Scenario.on_ascii
            (Scenario.account_details "A") "admin1" "mem-2" "o2" None 20 Scenario.db_member_added)).
  - reflexivity.
  - reflexivity.
  - apply list_elem_of_here.
  - reflexivity.
  - reflexivity.
  - discriminate.
Defined.

(** X17. A recount stores what it counts, and it counts consistently: after
    [update_group_member_count] the group read back by its id carries the
    returned pair as [total_members] and [active_members]; the pair is the
    number of the group's member records that are not "deleted" and the
    number that are "active", so 0 ≤ active ≤ total; member records are
    not written; and a second recount with the same stamp changes
    nothing. *)
Theorem update_group_member_count_stores group_id now d :
  let r := update_group_member_count group_id now d in
  fst r = (Z.of_nat (count_documents (counts_as_total group_id) (members d)),
           Z.of_nat (count_documents (counts_as_active group_id) (members d)))
  ∧ (0 ≤ (fst r).2 ≤ (fst r).1)%Z
  ∧ members (snd r) = members d
  ∧ (∀ g, get_group_by_id group_id d = Some g →
       ∃ g', get_group_by_id group_id (snd r) = Some g'
             ∧ (g_total_members g', g_active_members g') = fst r
             ∧ (g_group_name g', g_trading_status g', g_profit_sharing_percent g')
               = (g_group_name g, g_trading_status g, g_profit_sharing_percent g))
  ∧ update_group_member_count group_id now (snd r) = r.
Proof.
  simpl. unfold update_group_member_count. simpl.
  split; [done|]. split.
  { split; [lia|]. apply inj_le. apply length_find_le.
    intros x Hx. apply andb_prop in Hx as [Hg Ha].
    apply bool_decide_eq_true_1 in Ha. rewrite Hg, Ha. done. }
  split; [done|]. split.
  { intros g Hg. eexists. split.
    - rewrite get_group_by_id_update_group_document, Hg. reflexivity.
    - done. }
  f_equal. unfold update_group_document. destruct d as [us gs ms ts ss].
  unfold set_groups. simpl. f_equal. by apply update_one_twice.
Qed.

Lemma update_group_member_count_stores_witness :
  ∃ g', get_group_by_id "A"
          (snd (update_group_member_count "A" 80 Scenario.db_pending_member))
        = Some g'
        ∧ (g_total_members g', g_active_members g')
          = fst (update_group_member_count "A" 80 Scenario.db_pending_member)
        ∧ (g_group_name g', g_trading_status g', g_profit_sharing_percent g')
          = (g_group_name Scenario.group_A, g_trading_status Scenario.group_A,
             g_profit_sharing_percent Scenario.group_A).
Proof.
  apply (update_group_member_count_stores "A" 80 Scenario.db_pending_member).
  reflexivity.
Defined.

(** X18. A successful [add_member_to_group] leaves the group's stored
    counters equal to the member records: the new record is "active" and
    last in the collection, and the group read back by its id has
    [total_members] and [active_members] equal to the numbers of its
    not-deleted and of its active records, the latter at least 1. *)
Theorem add_member_to_group_counts py member_data added_by uuid oid
    add_slave_account now d msg record :
  fst (add_member_to_group py member_data added_by uuid oid add_slave_account
         now d)
    = StatusTrue msg record →
  let d' := snd (add_member_to_group py member_data added_by uuid oid
                   add_slave_account now d) in
  let group_id := mc_group_id member_data in
  length (members d') = S (length (members d))
  ∧ (m_user_id record, m_group_id record, m_status record)
    = (UserId (mc_user_id member_data), group_id, "active")
  ∧ ∃ g', get_group_by_id group_id d' = Some g'
          ∧ g_total_members g'
            = Z.of_nat (count_documents (counts_as_total group_id) (members d'))
          ∧ g_active_members g'
            = Z.of_nat (count_documents (counts_as_active group_id) (members d'))
          ∧ (1 ≤ g_active_members g' ≤ g_total_members g')%Z.
Proof.
  unfold add_member_to_group.
  destruct (get_user_by_id _ d); [|done].
  destruct (get_group_by_id _ d) as [group|] eqn:Hg; [|done].
  destruct (find _ (members d)); [|done].
  destruct (verify_mt5_account _ _ _ _ _); [done|].
  set (rec0 := {| m_oid := oid; m_member_id := Some uuid;
                  m_user_id := UserId (mc_user_id member_data);
                  m_group_id := mc_group_id member_data;
                  m_account_id := None; m_status := "active";
                  m_opening_balance := mc_opening_balance member_data;
                  m_joined_at := None; m_approved_at := None;
                  m_approved_by := None; m_left_at := None;
                  m_slave_account_id := None; m_master_account_id := None;
                  m_added_by := Some added_by; m_updated_at := Some now |}).
  assert (∀ ms' : list member,
            length (find (counts_as_active (mc_group_id member_data)) ms')
              = length (find (counts_as_active (mc_group_id member_data))
                          (insert_one rec0 (members d))) →
            (1 ≤ length (find (counts_as_active (mc_group_id member_data)) ms')
             ≤ length (find (counts_as_total (mc_group_id member_data)) ms'))%nat)
    as Hbounds.
  { intros ms' Hlen. split.
    - rewrite Hlen, find_insert_one, length_app.
      unfold counts_as_active at 2. simpl.
      rewrite !bool_decide_eq_true_2 by done. simpl. lia.
    - apply length_find_le. intros x Hx. apply andb_prop in Hx as [Hx Ha].
      apply bool_decide_eq_true_1 in Ha. unfold counts_as_total.
      rewrite Hx, Ha. done. }
  destruct (create_slave_in_trade_copier group add_slave_account) as [slave|];
    simpl; intros [= _ <-].
  - split; [rewrite length_update_one; unfold insert_one;
            by rewrite length_app, Nat.add_comm|].
    split; [done|]. eexists. split.
    { rewrite get_group_by_id_update_group_document.
      change (get_group_by_id (mc_group_id member_data) (set_members _ (set_members _ d)))
        with (get_group_by_id (mc_group_id member_data) d).
      rewrite Hg. reflexivity. }
    simpl. split; [done|]. split; [done|].
    unfold count_documents in *.
    specialize (Hbounds (update_one (by_member_id uuid)
                           (set_trade_copier_mapping (Some slave)
                              (mjoin (head (g_master_accounts group))) now)
                           (insert_one rec0 (members d)))).
    rewrite length_find_update_one_same in Hbounds by done.
    specialize (Hbounds eq_refl).
    rewrite length_find_update_one_same in Hbounds by done.
    rewrite !length_find_update_one_same by done.
    fold (counts_as_total (mc_group_id member_data)).
    fold (counts_as_active (mc_group_id member_data)). lia.
  - split; [unfold insert_one; by rewrite length_app, Nat.add_comm|].
    split; [done|]. eexists. split.
    { rewrite get_group_by_id_update_group_document.
      change (get_group_by_id (mc_group_id member_data) (set_members _ d))
        with (get_group_by_id (mc_group_id member_data) d).
      rewrite Hg. reflexivity. }
    simpl. split; [done|]. split; [done|].
    specialize (Hbounds _ eq_refl).
    fold (counts_as_total (mc_group_id member_data)).
    fold (counts_as_active (mc_group_id member_data)). lia.
Qed.

Lemma add_member_to_group_counts_witness :
  length (members Scenario.db_member_added)
  = S (length (members Scenario.db_approved_user)).
Proof.
  eapply (add_member_to_group_counts Scenario.on_ascii
            (Scenario.account_details "A") "admin1" "mem-1" "o1" None 10
            Scenario.db_approved_user).
  reflexivity.
Defined.

End MemberBehaviour.

(* ===================================================================== *)
(** ** More on the group handlers                                         *)
(* ===================================================================== *)

Section HandlerBehaviour.
Import Mongo Backend.
Implicit Types (d : db) (m : member) (u : user) (g : group)
               (a : trading_account).

Lemma verify_admin_or_manager_resolved caller d u :
  find_one (by_oid_user caller) (users d) = Some u →
  u_role u = "admin" ∨ u_role u = "group_manager" →
  verify_admin_or_manager caller d = Resolved u.
Proof.
  intros Hu Hrole. unfold verify_admin_or_manager. rewrite Hu.
  destruct Hrole as [-> | ->]; done.
Qed.

(** X19. The direct admin join either refuses and writes nothing, or
    appends one pending member record and one pending trading account
    linked to it.  A caller without a user document is answered 404, one
    who is neither admin nor group manager 403.  For an admin or group
    manager, an unknown group is answered 404, and a member record (of any
    status) that carries the caller's user document as it now reads and
    the group id, 400; otherwise the two documents are the only change,
    both carry that user document under "user_id", and neither the users
    (the caller's group pointer included) nor any group is written. *)
Theorem join_group_outcomes group_id join_data caller account_oid
    member_oid now d :
  let r := join_group group_id join_data caller account_oid member_oid now d in
  (∀ code detail, fst r = HTTPException code detail → snd r = d)
  ∧ (find_one (by_oid_user caller) (users d) = None →
       r = (HTTPException 404 "User not found", d))
  ∧ (∀ u,
       find_one (by_oid_user caller) (users d) = Some u →
       u_role u ≠ "admin" → u_role u ≠ "group_manager" →
       r = (HTTPException 403 "Admin or Group Manager access required", d))
  ∧ (∀ u,
       find_one (by_oid_user caller) (users d) = Some u →
       u_role u = "admin" ∨ u_role u = "group_manager" →
       (find_one (λ g, bool_decide (g_oid g = group_id)) (groups d) = None →
          r = (HTTPException 404 "Group not found", d))
       ∧ (∀ g m0,
            find_one (λ g, bool_decide (g_oid g = group_id)) (groups d) = Some g →
            find_one (λ m, bool_decide (m_user_id m = UserDoc u)
                           && bool_decide (m_group_id m = group_id)) (members d)
              = Some m0 →
            r = (HTTPException 400 "Already a member of this group", d))
       ∧ (∀ g,
            find_one (λ g, bool_decide (g_oid g = group_id)) (groups d) = Some g →
            find_one (λ m, bool_decide (m_user_id m = UserDoc u)
                           && bool_decide (m_group_id m = group_id)) (members d)
              = None →
            ∃ m a,
              members (snd r) = members d ++ [m]
              ∧ trading_accounts (snd r) = trading_accounts d ++ [a]
              ∧ (m_oid m, m_user_id m, m_group_id m, m_status m, m_account_id m)
                = (member_oid, UserDoc u, group_id, "pending", Some account_oid)
              ∧ (a_oid a, a_user_id a, a_group_id a, a_status a)
                = (account_oid, UserDoc u, Some group_id, "pending")
              ∧ users (snd r) = users d
              ∧ groups (snd r) = groups d
              ∧ settlements (snd r) = settlements d)).
Proof.
  simpl. split; [|split; [|split]].
  - intros code detail. unfold join_group.
    destruct (verify_admin_or_manager caller d); [|done].
    destruct (find_one _ (groups d)); [|done].
    destruct (find_one _ (members d)); [done | discriminate].
  - intros Hu. unfold join_group, verify_admin_or_manager. by rewrite Hu.
  - intros u Hu Ha Hm. unfold join_group, verify_admin_or_manager. rewrite Hu.
    by rewrite !bool_decide_eq_false_2.
  - intros u Hu Hrole. unfold join_group.
    rewrite (verify_admin_or_manager_resolved _ _ _ Hu Hrole).
    split; [|split].
    + by intros ->.
    + by intros g m0 -> ->.
    + intros g -> ->. simpl. eexists _, _. repeat split.
Qed.

Lemma join_group_outcomes_witness :
  ∃ m a,
    members Scenario.db_direct_join = members Scenario.db_office ++ [m]
    ∧ trading_accounts Scenario.db_direct_join
      = trading_accounts Scenario.db_office ++ [a]
    ∧ (m_oid m, m_user_id m, m_group_id m, m_status m, m_account_id m)
      = (Scenario.oid_m1, UserDoc Scenario.an_admin, Scenario.oid_A, "pending",
         Some Scenario.oid_acc1)
    ∧ (a_oid a, a_user_id a, a_group_id a, a_status a)
      = (Scenario.oid_acc1, UserDoc Scenario.an_admin, Some Scenario.oid_A,
         "pending")
    ∧ users Scenario.db_direct_join = users Scenario.db_office
    ∧ groups Scenario.db_direct_join = groups Scenario.db_office
    ∧ settlements Scenario.db_direct_join = settlements Scenario.db_office.
Proof.
  eapply (join_group_outcomes Scenario.oid_A Scenario.join_request
            Scenario.oid_admin Scenario.oid_acc1 Scenario.oid_m1 10
            Scenario.db_office).
  - reflexivity.
  - left. reflexivity.
  - reflexivity.
  - reflexivity.
Defined.

(** X20. A direct join followed by an approval: for a caller the
    dependency resolves to the user document [u], when the ids the store
    assigns to the member record and to the trading account are not in use,
    approving the new member succeeds, the member read back by its id is
    "active", approved by the approver and still carries [u] under
    "user_id", its trading account is "approved", and the group documents
    (their counters included) are still as before the join. *)
Theorem join_group_then_approve group_id join_data caller account_oid
    member_oid now approver now' d u g :
  verify_admin_or_manager caller d = Resolved u →
  find_one (λ g, bool_decide (g_oid g = group_id)) (groups d) = Some g →
  find_one (λ m, bool_decide (m_user_id m = UserDoc u)
                 && bool_decide (m_group_id m = group_id)) (members d) = None →
  find_one (by_oid_member member_oid) (members d) = None →
  find_one (by_oid_account account_oid) (trading_accounts d) = None →
  account_oid ≠ "" →
  let d1 := snd (join_group group_id join_data caller account_oid
                   member_oid now d) in
  let r := approve_member member_oid approver now' d1 in
  fst r = approved_response
  ∧ (∃ m, find_one (by_oid_member member_oid) (members (snd r)) = Some m
          ∧ (m_user_id m, m_group_id m, m_status m, m_approved_by m)
            = (UserDoc u, group_id, "active", Some approver))
  ∧ a_status <$> find_one (by_oid_account account_oid) (trading_accounts (snd r))
    = Some "approved"
  ∧ groups (snd r) = groups d.
Proof.
  intros Hu Hg Hpair Hm Ha Hne.
  pose (a0 := {| a_oid := account_oid; a_user_id := UserDoc u;
                 a_group_id := Some group_id;
                 a_account_number := jr_account_number join_data;
                 a_status := "pending"; a_updated_at := now |}).
  pose (m0 := {| m_oid := member_oid; m_member_id := None;
                 m_user_id := UserDoc u; m_group_id := group_id;
                 m_account_id := Some account_oid; m_status := "pending";
                 m_opening_balance := 0%float; m_joined_at := Some now;
                 m_approved_at := None; m_approved_by := None; m_left_at := None;
                 m_slave_account_id := None; m_master_account_id := None;
                 m_added_by := None; m_updated_at := None |}).
  assert (snd (join_group group_id join_data caller account_oid
                 member_oid now d)
          = set_members (insert_one m0)
              (set_trading_accounts (insert_one a0) d)) as ->.
  { unfold join_group. by rewrite Hu, Hg, Hpair. }
  set (d1 := set_members (insert_one m0) (set_trading_accounts (insert_one a0) d)).
  assert (find_one (by_oid_member member_oid) (members d1) = Some m0) as Hm1.
  { subst d1. simpl. apply find_one_insert_one_fresh; [done|].
    unfold by_oid_member. by rewrite bool_decide_eq_true_2. }
  simpl. rewrite (approve_member_found _ _ _ _ _ Hm1).
  assert (bool_decide (m_status m0 = "active") = false) as -> by done.
  cbn [andb fst snd].
  destruct (groups_approve_member member_oid approver now' d1)
    as (Hgr & _ & _ & Hmem).
  rewrite (approve_member_found _ _ _ _ _ Hm1) in Hgr, Hmem.
  assert (bool_decide (m_status m0 = "active") = false) as Hf by done.
  rewrite Hf in Hgr, Hmem. cbn [andb fst snd] in Hgr, Hmem.
  split; [done|]. split.
  { exists (set_approved approver now' m0). split; [|done].
    rewrite Hmem, find_one_update_one by done. by rewrite Hm1. }
  split; [|exact Hgr].
  unfold approve_trading_account. simpl.
  rewrite bool_decide_eq_true_2 by done. simpl.
  rewrite find_one_update_one by done.
  rewrite (find_one_insert_one_fresh _ _ _ Ha);
    [done | unfold by_oid_account; by rewrite bool_decide_eq_true_2].
Qed.

Lemma join_group_then_approve_witness :
  fst (approve_member Scenario.oid_m1 Scenario.oid_admin 20
         Scenario.db_direct_join)
  = approved_response.
Proof.
  apply (join_group_then_approve Scenario.oid_A Scenario.join_request
           Scenario.oid_admin Scenario.oid_acc1 Scenario.oid_m1 10
           Scenario.oid_admin 20 Scenario.db_office Scenario.an_admin
           (Scenario.stored_as Scenario.oid_A Scenario.group_A));
    (reflexivity || discriminate).
Defined.

(** *** Leaving *)

Lemma find_one_update_one_is_Some {D} (p q : D → bool) (f : D → D) (c : list D) :
  (∀ x, q (f x) = q x) →
  is_Some (find_one q c) → is_Some (find_one q (update_one p f c)).
Proof.
  intros Hq. unfold find_one. induction c as [|x c IH]; simpl; [done|].
  destruct (p x) eqn:Ep; simpl.
  - rewrite Hq. by destruct (q x).
  - destruct (q x); [eauto | apply IH].
Qed.



Lemma find_one_insert_one_none {D} (q : D → bool) (x : D) (c : list D) :
  find_one q c = None → q x = false → find_one q (insert_one x c) = None.
Proof.
  unfold find_one, insert_one. induction c as [|y c IH]; simpl.
  - by intros _ ->.
  - destruct (q y); [done | apply IH].
Qed.

(** X22. Who was joined directly can neither leave nor be joined again:
    the direct join stores the caller's user document under "user_id",
    where [leave_group] looks for the caller's id string.  After a
    successful direct join, and unless a record with the caller's id
    string and the group id was there before, the caller's [leave_group]
    for that group is answered 404 "Not a member of this group" and writes
    nothing; and a second direct join of the same group, the user document
    not having been written in between, is answered 400 "Already a member
    of this group" and writes nothing. *)
Theorem direct_member_cannot_leave group_id join_data caller account_oid
    member_oid now now' account_oid' member_oid' d response :
  fst (join_group group_id join_data caller account_oid member_oid now d)
    = Response response →
  find_one (λ m, bool_decide (m_user_id m = UserId caller)
                 && bool_decide (m_group_id m = group_id)) (members d) = None →
  let d1 := snd (join_group group_id join_data caller account_oid
                   member_oid now d) in
  leave_group group_id caller now' d1
    = (HTTPException 404 "Not a member of this group", d1)
  ∧ join_group group_id join_data caller account_oid' member_oid' now' d1
    = (HTTPException 400 "Already a member of this group", d1).
Proof.
  unfold join_group at 1 2 3.
  destruct (verify_admin_or_manager caller d) as [u|] eqn:Hu; [|done].
  destruct (find_one _ (groups d)) as [g|] eqn:Hg; [|done].
  destruct (find_one _ (members d)) eqn:Hpair; [done|].
  cbn [fst snd]. intros _ Hid. split.
  - unfold leave_group. cbn [members set_members set_trading_accounts].
    rewrite find_one_insert_one_none; done.
  - unfold join_group.
    change (verify_admin_or_manager caller (set_members _ (set_trading_accounts _ d)))
      with (verify_admin_or_manager caller d).
    rewrite Hu. cbn [groups members set_members set_trading_accounts].
    rewrite Hg.
    rewrite (find_one_insert_one_fresh _ _ _ Hpair); [done|].
    cbn [m_user_id m_group_id]. by rewrite !bool_decide_eq_true_2.
Qed.

Lemma direct_member_cannot_leave_witness :
  leave_group Scenario.oid_A Scenario.oid_admin 30 Scenario.db_direct_join
    = (HTTPException 404 "Not a member of this group", Scenario.db_direct_join)
  ∧ join_group Scenario.oid_A Scenario.join_request Scenario.oid_admin
      Scenario.oid_acc2 Scenario.oid_m2 30 Scenario.db_direct_join
    = (HTTPException 400 "Already a member of this group",
       Scenario.db_direct_join).
Proof.
  eapply (direct_member_cannot_leave Scenario.oid_A Scenario.join_request
            Scenario.oid_admin Scenario.oid_acc1 Scenario.oid_m1 10 30
            Scenario.oid_acc2 Scenario.oid_m2 Scenario.db_office);
    reflexivity.
Defined.

(** X23. [leave_current_group] writes the user document and nothing else:
    a caller that is unknown or has no group is answered 400 and nothing
    changes; otherwise the user reads back without group pointer, join date
    and referral code, while the member records (still not "left"), the
    trading accounts and the groups are exactly as before. *)
Theorem leave_current_group_outcomes current_user_id now d :
  let r := leave_current_group current_user_id now d in
  (∀ code detail, fst r = HTTPException code detail → code = 400%Z ∧ snd r = d)
  ∧ (∀ u group_id,
       find_one (by_oid_user current_user_id) (users d) = Some u →
       u_group_id u = Some group_id → group_id ≠ "" →
       find_one (by_oid_user current_user_id) (users (snd r))
         = Some (unset_group now u)
       ∧ (u_group_id (unset_group now u), u_group_join_date (unset_group now u),
          u_referral_code_used (unset_group now u)) = (None, None, None)
       ∧ (members (snd r), trading_accounts (snd r), groups (snd r))
         = (members d, trading_accounts d, groups d)).
Proof.
  simpl. unfold leave_current_group. split.
  - intros code detail.
    destruct (find_one _ (users d)) as [u|]; [|by intros [= <- _]].
    destruct (u_group_id u) as [gid|]; [|by intros [= <- _]].
    case_bool_decide; [discriminate | by intros [= <- _]].
  - intros u group_id Hu Hg Hne. rewrite Hu, Hg.
    rewrite bool_decide_eq_true_2 by done. simpl.
    split; [|done]. rewrite find_one_update_one by done. by rewrite Hu.
Qed.

Lemma leave_current_group_outcomes_witness :
  (members (snd (leave_current_group "u1" 30 Scenario.db_member_of_A_approved)),
   trading_accounts (snd (leave_current_group "u1" 30 Scenario.db_member_of_A_approved)),
   groups (snd (leave_current_group "u1" 30 Scenario.db_member_of_A_approved)))
  = (members Scenario.db_member_of_A_approved,
     trading_accounts Scenario.db_member_of_A_approved,
     groups Scenario.db_member_of_A_approved).
Proof.
  eapply (proj2 (leave_current_group_outcomes "u1" 30
                   Scenario.db_member_of_A_approved)
            (Scenario.a_user "u1" "approved" (Some "a1")) "a1").
  - reflexivity.
  - reflexivity.
  - discriminate.
Defined.

Lemma find_one_conj_none {D} (p r : D → bool) (c : list D) :
  find p c = [] → find_one (λ x, p x && r x) c = None.
Proof.
  unfold find, find_one. induction c as [|x c IH]; simpl; [done|].
  destruct (p x); [done|]. simpl. apply IH.
Qed.

(** With at most one document under a key, clearing it leaves none that
    answers the key together with a condition the cleared document fails. *)
Lemma find_one_after_clearing {D} (p r : D → bool) (f : D → D) (c : list D) :
  (∀ x, p (f x) = p x) → (∀ x, r (f x) = false) →
  (count_documents p c ≤ 1)%nat →
  find_one (λ x, p x && r x) (update_one p f c) = None.
Proof.
  intros Hp Hr. unfold count_documents, find, find_one.
  induction c as [|x c IH]; simpl; [done|].
  destruct (p x) eqn:E; simpl.
  - intros Hc. rewrite Hp, E, Hr. simpl.
    apply (find_one_conj_none p r c). unfold find.
    destruct (List.filter p c); [done | simpl in Hc; lia].
  - intros Hc. rewrite E. simpl. by apply IH.
Qed.

(** X24. Leaving through [leave_current_group] and joining another group
    by referral leaves the old membership standing: for a user document
    that is the only one under its id, with approved IB status, the join
    succeeds and moves the group pointer to the resolved group, while the
    member records and the trading accounts of the previous group are
    exactly as before the leave: no record is marked "left", no account
    deactivated. *)
Theorem leave_current_then_join code current_user_id now now' rt d h u
    group_id group :
  find_one (by_oid_user current_user_id) (users d) = Some u →
  (count_documents (by_oid_user current_user_id) (users d) ≤ 1)%nat →
  u_group_id u = Some group_id → group_id ≠ "" →
  u_ib_status u = Some "approved" →
  find_one (λ g, bool_decide (g_referral_code g = Some code)
                 || bool_decide (g_api_key g = Some code)) (groups d) = Some group →
  let d1 := snd (leave_current_group current_user_id now d) in
  let r := join_group_by_referral code current_user_id now' rt (d1, h) in
  fst r = Response (joined_response group now')
  ∧ u_group_id <$> find_one (by_oid_user current_user_id) (users (snd r).1)
    = Some (Some (g_oid group))
  ∧ members (snd r).1 = members d
  ∧ trading_accounts (snd r).1 = trading_accounts d.
Proof.
  intros Hu Hone Hg Hne Hib Hgroup.
  assert (snd (leave_current_group current_user_id now d)
          = set_users (update_one (by_oid_user current_user_id) (unset_group now)) d)
    as ->.
  { unfold leave_current_group. rewrite Hu, Hg.
    by rewrite bool_decide_eq_true_2. }
  set (d1 := set_users _ d). simpl.
  assert (find_existing_membership current_user_id d1 = None) as Hnone.
  { unfold find_existing_membership. subst d1. simpl.
    by apply (find_one_after_clearing (by_oid_user current_user_id)
                (λ u, bool_decide (is_Some (u_group_id u)))). }
  assert (find_one (by_oid_user current_user_id) (users d1)
          = Some (unset_group now u)) as Hu1.
  { subst d1. simpl. rewrite find_one_update_one by done. by rewrite Hu. }
  unfold join_group_by_referral.
  change (groups d1) with (groups d). rewrite Hgroup, Hnone. cbv iota beta.
  rewrite Hu1. cbn [u_ib_status unset_group]. rewrite Hib.
  rewrite bool_decide_eq_true_2 by done. cbn [negb fst snd].
  split; [done|]. split; [|done].
  cbn [users set_users]. rewrite find_one_update_one by done.
  change (update_one (by_oid_user current_user_id) (unset_group now) (users d))
    with (users d1).
  by rewrite Hu1.
Qed.

Lemma leave_current_then_join_witness :
  members (snd (join_group_by_referral "REF_B" "u1" 40 Realtime.init
                  (snd (leave_current_group "u1" 30
                          Scenario.db_member_of_A_approved), ∅))).1
  = members Scenario.db_member_of_A_approved.
Proof.
  eapply (leave_current_then_join "REF_B" "u1" 30 40 Realtime.init
            Scenario.db_member_of_A_approved ∅
            (Scenario.a_user "u1" "approved" (Some "a1")) "a1" Scenario.group_B).
  - reflexivity.
  - vm_compute. lia.
  - reflexivity.
  - discriminate.
  - reflexivity.
  - reflexivity.
Defined.

(** *** Status updates and gates *)



(** X26. Approving a member is for admins and group managers: a caller that
    is unknown or has another role is answered 404 or 403 by the
    dependency and nothing is written; for an admin or a group manager the
    route is [approve_member] with the caller's id as approver. *)
Theorem approve_member_route_gate member_id current_user_id now d :
  ((∀ u, find_one (by_oid_user current_user_id) (users d) = Some u →
         u_role u ≠ "admin" ∧ u_role u ≠ "group_manager") →
   approve_member_route member_id current_user_id now d
     = (HTTPException 404 "User not found", d)
   ∨ approve_member_route member_id current_user_id now d
     = (HTTPException 403 "Admin or Group Manager access required", d))
  ∧ (∀ u, find_one (by_oid_user current_user_id) (users d) = Some u →
          u_role u = "admin" ∨ u_role u = "group_manager" →
          approve_member_route member_id current_user_id now d
          = approve_member member_id current_user_id now d).
Proof.
  unfold approve_member_route, verify_admin_or_manager. split.
  - intros Hu. destruct (find_one _ (users d)) as [u|]; [|by left].
    destruct (Hu u eq_refl) as [Ha Hm]. right.
    by rewrite !bool_decide_eq_false_2.
  - intros u Hu Hrole. rewrite Hu.
    assert (bool_decide (u_role u = "admin")
            || bool_decide (u_role u = "group_manager") = true) as ->.
    { destruct Hrole as [->| ->]; done. }
    apply find_some in Hu as [_ Hoid]. unfold by_oid_user in Hoid.
    apply bool_decide_eq_true_1 in Hoid. by rewrite Hoid.
Qed.

Lemma approve_member_route_gate_witness :
  approve_member_route "m1" "u1" 70 Scenario.db_pending_member
    = (HTTPException 404 "User not found", Scenario.db_pending_member)
  ∨ approve_member_route "m1" "u1" 70 Scenario.db_pending_member
    = (HTTPException 403 "Admin or Group Manager access required",
       Scenario.db_pending_member).
Proof.
  apply (approve_member_route_gate "m1" "u1" 70 Scenario.db_pending_member).
  intros u [= <-]. split; discriminate.
Defined.



End HandlerBehaviour.
